(** * LastMile: route selection and fallback routing

    A shallow embedding of the two map components that decide which route
    is shown:

    - [RouteTracker] (frontend/src/components/RouteTracker.jsx), which asks
      the routing control for alternatives and keeps the shortest one;
    - [RoutingMachine] (the single-page app), which asks OSRM for a route and
      degrades to a synthesized path when the provider gives nothing.

    JavaScript numbers are modelled by exact rationals [Q]: the arithmetic of
    the source is kept expression by expression, rounding of binary64 is
    abstracted away, and numeric results are compared with [==].  Leaflet is
    an external library; what the components use of it is the interface
    [Leaflet] below.

    A component run is a function from the contents of its refs to a
    completion, the new refs and the list of things it did to the map, the
    console, the provider and its parent.  Three conventions:

    - the answer of the provider is an input of the run ([Osrm.Reply]): the
      request is assumed to settle, one way or the other;
    - of Leaflet's calls, drawing a polyline may throw, as the map decides,
      and [fitBounds] throws on bounds that are not valid, those of an empty
      path;
    - [onRoutesFound] is an observer, as the handler of the app is (two state
      setters): a call is recorded and returns. *)

From Stdlib Require Import List ZArith QArith Qabs Qround Lqa Lia String Bool.
Import ListNotations.
Open Scope Q_scope.

(** ** Leaflet *)

(** A JavaScript coordinate array [[lat, lng]]. *)
Definition Point : Type := (Q * Q)%type.

(** [L.LatLng]. *)
Record LatLng : Type := mkLatLng { lat : Q; lng : Q }.

(** [L.latLng([lat, lng])]. *)
Definition latLng (p : Point) : LatLng := mkLatLng (fst p) (snd p).

(** The part of Leaflet the components call.  [distanceTo] is
    [LatLng.prototype.distanceTo] (great-circle distance in meters);
    [renders path] tells whether [L.polyline(path, ...).addTo(map)] returns
    ([true]) or throws ([false]). *)
Class Leaflet : Type := {
  distanceTo : LatLng -> LatLng -> Q;
  renders : list LatLng -> bool
}.

(** Numerically equal positions. *)
Definition same_position (a b : LatLng) : Prop :=
  lat a == lat b /\ lng a == lng b.

(** ** What the components do to the outside world *)

(** The object handed to [onRoutesFound]. *)
Record RouteInfo : Type := mkRouteInfo {
  distance : Q;
  duration : Q;
  coordinates : list Point
}.

Inductive Event : Type :=
| RemoveControl                         (* map.removeControl(...) *)
| RemoveLayer                           (* map.removeLayer(...) *)
| ProviderRequest (waypoints : list Point)
                                        (* fetch(osrm url), or creating the
                                           routing control with its handlers *)
| ConsoleError (msg : string)           (* console.error(msg, ...) *)
| AddPolyline (path : list LatLng)      (* L.polyline(path).addTo(map) *)
| FitBounds (path : list LatLng) (padding : Z * Z) (maxZoom : Z)
                                        (* map.fitBounds(bounds, {...}) *)
| RoutesFound (info : RouteInfo)        (* onRoutesFound({...}) *)
| UnhandledRejection.                   (* a promise nobody awaits rejected *)

(** The two [useRef] cells of a component. *)
Record Refs : Type := mkRefs {
  routingControlRef : option (list Point);
  routeLineRef : option (list LatLng)
}.

(** A statement either completes or throws. *)
Inductive Completion (A : Type) : Type :=
| Normal (a : A)
| Thrown.
Arguments Normal {A} a.
Arguments Thrown {A}.

Record Run (A : Type) : Type := mkRun {
  completion : Completion A;
  refs : Refs;
  trace : list Event
}.
Arguments mkRun {A}.
Arguments completion {A}.
Arguments refs {A}.
Arguments trace {A}.

(** Effectful code: reads and writes the refs, emits events, may throw. *)
Definition Eff (A : Type) : Type := Refs -> Run A.

Definition ret {A} (a : A) : Eff A := fun r => mkRun (Normal a) r [].

Definition bind {A B} (m : Eff A) (k : A -> Eff B) : Eff B :=
  fun r =>
    let x := m r in
    match completion x with
    | Normal a =>
        let y := k a (refs x) in
        mkRun (completion y) (refs y) (trace x ++ trace y)
    | Thrown => mkRun Thrown (refs x) (trace x)
    end.

Declare Scope eff_scope.
Delimit Scope eff_scope with eff.
Notation "x <- m ;; k" := (bind m (fun x => k))
  (at level 100, m at next level, right associativity) : eff_scope.
Notation "m ;; k" := (bind m (fun _ => k))
  (at level 100, right associativity) : eff_scope.
Open Scope eff_scope.

Definition throw {A} : Eff A := fun r => mkRun Thrown r [].

Definition emit (e : Event) : Eff unit := fun r => mkRun (Normal tt) r [e].

Definition getRefs : Eff Refs := fun r => mkRun (Normal r) r [].

Definition setRouteLineRef (l : option (list LatLng)) : Eff unit :=
  fun r => mkRun (Normal tt) (mkRefs (routingControlRef r) l) [].

Definition setRoutingControlRef (c : option (list Point)) : Eff unit :=
  fun r => mkRun (Normal tt) (mkRefs c (routeLineRef r)) [].

(** [try { body } catch (error) { handler }]. *)
Definition tryCatch {A} (body handler : Eff A) : Eff A :=
  fun r =>
    let x := body r in
    match completion x with
    | Normal _ => x
    | Thrown =>
        let y := handler (refs x) in
        mkRun (completion y) (refs y) (trace x ++ trace y)
    end.

(** Calling an [async] function without awaiting it: its body runs, and a
    throw inside it rejects a promise that nobody observes. *)
Definition detached (m : Eff unit) : Eff unit :=
  fun r =>
    let x := m r in
    match completion x with
    | Normal _ => x
    | Thrown => mkRun (Normal tt) (refs x) (trace x ++ [UnhandledRejection])
    end.

(** Truthiness of a ref that holds an object or [null]. *)
Definition truthy {A} (o : option A) : bool :=
  match o with Some _ => true | None => false end.

(** [if (c) { m }]. *)
Definition when (c : bool) (m : Eff unit) : Eff unit :=
  if c then m else ret tt.

(** [L.polyline(path, {...}).addTo(map)]. *)
Definition polyline `{Leaflet} (path : list LatLng) : Eff (list LatLng) :=
  if renders path then (emit (AddPolyline path) ;; ret path) else throw.

(** [map.fitBounds(bounds, { padding, maxZoom })], [bounds] being those of
    [path]: Leaflet throws "Bounds are not valid." when no point was put
    into them. *)
Definition fitBounds (path : list LatLng) (padding : Z * Z) (maxZoom : Z)
  : Eff unit :=
  match path with
  | [] => throw
  | _ :: _ => emit (FitBounds path padding maxZoom)
  end.

(** The invocations of [onRoutesFound] recorded in a trace. *)
Fixpoint callbacks (t : list Event) : list RouteInfo :=
  match t with
  | [] => []
  | RoutesFound info :: t' => info :: callbacks t'
  | _ :: t' => callbacks t'
  end.

(** The view hints [(padding, maxZoom)] given to [map.fitBounds]. *)
Fixpoint hints (t : list Event) : list (Z * Z * Z) :=
  match t with
  | [] => []
  | FitBounds _ padding maxZoom :: t' => (padding, maxZoom) :: hints t'
  | _ :: t' => hints t'
  end.

(** The paths drawn on the map. *)
Fixpoint drawn (t : list Event) : list (list LatLng) :=
  match t with
  | [] => []
  | AddPolyline path :: t' => path :: drawn t'
  | _ :: t' => drawn t'
  end.

(** The requests sent to a routing provider. *)
Fixpoint requests (t : list Event) : list (list Point) :=
  match t with
  | [] => []
  | ProviderRequest w :: t' => w :: requests t'
  | _ :: t' => requests t'
  end.

(** ** leaflet-routing-machine and OSRM data *)

(** Routes as the routing control reports them in its [routesfound] event. *)
Module Lrm.
Record Summary : Type := mkSummary { totalDistance : Q; totalTime : Q }.
Record IRoute : Type := mkRoute {
  summary : Summary;
  coordinates : list LatLng
}.
End Lrm.

(** What [fetch] on the OSRM endpoint can give back. *)
Module Osrm.
(** One entry of [data.routes]; [geometry] holds [route.geometry.coordinates]
    as [[lng, lat]] arrays, [None] when the entry carries no geometry. *)
Record Route : Type := mkRoute {
  distance : Q;
  duration : Q;
  geometry : option (list Point)
}.

(** [ok] is [response.ok]; the component never reads it. *)
Inductive Reply : Type :=
| FetchRejected                                   (* fetch(url) rejects *)
| NotJson (ok : bool)                             (* response.json() rejects *)
| Json (ok : bool) (routes : option (list Route)). (* data.routes, if any *)
End Osrm.

(** ** RouteTracker.jsx *)

Module RouteTracker.
Import Lrm.

(** The reducer of line 52: keep [currentRoute] only when it is strictly
    shorter than the running minimum. *)
Definition shorter (minRoute currentRoute : IRoute) : IRoute :=
  if Qlt_le_dec (totalDistance (summary currentRoute))
                (totalDistance (summary minRoute))
  then currentRoute
  else minRoute.

(** [routes.reduce(shorter, routes[0])], behind the emptiness test of
    line 49. *)
Definition shortestRoute (routes : list IRoute) : option IRoute :=
  match routes with
  | [] => None
  | r0 :: _ => Some (fold_left shorter routes r0)
  end.

Section Component.
Context `{Leaflet}.
Variable highlightShortest : bool.
Variable onRoutesFound : bool.   (* is the prop supplied? *)

(** The handler of the [routesfound] event.  The extra [shortestRoute]
    field of the callback argument is the selected route itself.  A route
    of the routing control always carries its array of coordinates, which
    may be empty. *)
Definition routesfound (routes : list IRoute) : Eff unit :=
  match shortestRoute routes with
  | None => ret tt
  | Some shortestRoute =>
      when highlightShortest
        (r <- getRefs ;;
         when (truthy (routeLineRef r)) (emit RemoveLayer) ;;
         shortestPolyline <- polyline (coordinates shortestRoute) ;;
         setRouteLineRef (Some shortestPolyline)) ;;
      fitBounds (coordinates shortestRoute) (50, 50)%Z 15%Z ;;
      when onRoutesFound
        (emit (RoutesFound
           (mkRouteInfo (totalDistance (summary shortestRoute))
                        (totalTime (summary shortestRoute))
                        (map (fun coord => (lat coord, lng coord))
                             (coordinates shortestRoute)))))
  end.

(** The body of [useEffect]. *)
Definition effect (waypoints : option (list Point)) : Eff unit :=
  r <- getRefs ;;
  when (truthy (routingControlRef r)) (emit RemoveControl) ;;
  when (truthy (routeLineRef r)) (emit RemoveLayer) ;;
  match waypoints with
  | None => ret tt
  | Some w =>
      if (List.length w <? 2)%nat then ret tt
      else (emit (ProviderRequest w) ;; setRoutingControlRef (Some w))
  end.
End Component.
End RouteTracker.

(** ** RoutingMachine (single-page app) *)

Module RoutingMachine.
Section Component.
Context `{Leaflet}.
Variable waypoints : list Point.
Variable onRoutesFound : bool.   (* is the prop supplied? *)

(** [waypoints[i]], read as an array: a [TypeError] when it is
    [undefined]. *)
Definition waypoint (i : nat) : Eff Point :=
  match nth_error waypoints i with
  | Some p => ret p
  | None => throw
  end.

(** Simplest fallback - direct line. *)
Definition createSimpleDirectRoute : Eff unit :=
  p0 <- waypoint 0 ;;
  p1 <- waypoint 1 ;;
  let start := latLng p0 in
  let end_ := latLng p1 in
  routeLine <- polyline [start; end_] ;;
  setRouteLineRef (Some routeLine) ;;
  let distance := distanceTo start end_ in
  let duration := distance / (40 * 1000 / 3600) in
  fitBounds routeLine (150, 150)%Z 1%Z ;;
  when onRoutesFound
    (emit (RoutesFound
       (mkRouteInfo distance duration
          [(lat start, lng start); (lat end_, lng end_)]))).

(** The intermediate points of lines 260-267. *)
Definition wayPoints (startPoint endPoint : Point) : list Point :=
  [ (fst startPoint, snd startPoint);
    (fst startPoint + (fst endPoint - fst startPoint) * 0.33,
     snd startPoint + (snd endPoint - snd startPoint) * 0.33);
    (fst startPoint + (fst endPoint - fst startPoint) * 0.66,
     snd startPoint + (snd endPoint - snd startPoint) * 0.66);
    (fst endPoint, snd endPoint) ].

(** The loop of lines 279-284, [i] running over
    [0 .. wayPoints.length - 2]. *)
Definition totalDistance (wayPoints : list Point) : Q :=
  fold_left
    (fun totalDistance i =>
       let point1 := latLng (nth i wayPoints (0, 0)) in
       let point2 := latLng (nth (i + 1) wayPoints (0, 0)) in
       totalDistance + distanceTo point1 point2)
    (seq 0 (List.length wayPoints - 1))
    0.

Definition createFallbackRoute : Eff unit :=
  tryCatch
    (startPoint <- waypoint 0 ;;
     endPoint <- waypoint 1 ;;
     let wayPoints := wayPoints startPoint endPoint in
     routeLine <- polyline (map latLng wayPoints) ;;
     setRouteLineRef (Some routeLine) ;;
     let totalDistance := totalDistance wayPoints in
     let duration := totalDistance / (40 * 1000 / 3600) in
     fitBounds routeLine (150, 150)%Z 13%Z ;;
     when onRoutesFound
       (emit (RoutesFound (mkRouteInfo totalDistance duration wayPoints))))
    (emit (ConsoleError "Fallback route calculation error:") ;;
     createSimpleDirectRoute).

(** [await fetch(url)] followed by [await response.json()]. *)
Definition fetchJson (reply : Osrm.Reply)
  : Eff (option (list Osrm.Route)) :=
  match reply with
  | Osrm.FetchRejected => throw
  | Osrm.NotJson _ => throw
  | Osrm.Json _ routes => ret routes
  end.

Definition fetchRoute (reply : Osrm.Reply) : Eff unit :=
  tryCatch
    (startPoint <- waypoint 0 ;;
     endPoint <- waypoint 1 ;;
     emit (ProviderRequest [startPoint; endPoint]) ;;
     routes <- fetchJson reply ;;
     match routes with
     | Some (route :: _) =>
         coordinates <-
           match Osrm.geometry route with
           | Some g => ret (map (fun coord => (snd coord, fst coord)) g)
           | None => throw
           end ;;
         routeLine <- polyline (map latLng coordinates) ;;
         setRouteLineRef (Some routeLine) ;;
         fitBounds routeLine (50, 50)%Z 15%Z ;;
         when onRoutesFound
           (emit (RoutesFound
              (mkRouteInfo (Osrm.distance route) (Osrm.duration route)
                           coordinates)))
     | _ => detached createFallbackRoute
     end)
    (emit (ConsoleError "Route calculation error:") ;;
     detached createFallbackRoute).
End Component.

(** The body of [useEffect]; [reply] is what the provider answers to the
    request of this run. *)
Definition effect `{Leaflet} (onRoutesFound : bool)
    (waypoints : option (list Point)) (reply : Osrm.Reply) : Eff unit :=
  match waypoints with
  | None => ret tt
  | Some w =>
      if (List.length w <? 2)%nat then ret tt
      else
        (r <- getRefs ;;
         when (truthy (routingControlRef r))
              (emit RemoveControl) ;;
         when (truthy (routeLineRef r))
              (emit RemoveLayer ;; setRouteLineRef None) ;;
         detached (fetchRoute w onRoutesFound reply))
  end.

(** [Math.round]. *)
Definition Math_round (x : Q) : Z := Qfloor (x + 0.5).

(** "Estimated driving time: ... minutes" of the route details panel. *)
Definition estimatedDrivingTime (routeInfo : RouteInfo) : Z :=
  Math_round (duration routeInfo / 60).
End RoutingMachine.

(** ** Notions used to state the properties *)

(** Numerically equal coordinate arrays. *)
Definition same_point (p q : Point) : Prop :=
  fst p == fst q /\ snd p == snd q.

(** The point at fraction [t] of the way from [a] to [b]. *)
Definition lerp (t : Q) (a b : Point) : Point :=
  (fst a + (fst b - fst a) * t, snd a + (snd b - snd a) * t).

(** Length of a path: the sum of the distances between consecutive points. *)
Fixpoint path_length `{Leaflet} (path : list LatLng) : Q :=
  match path with
  | a :: rest =>
      match rest with
      | b :: _ => distanceTo a b + path_length rest
      | [] => 0
      end
  | [] => 0
  end.

(** What makes [distanceTo] a distance: the great-circle distance is never
    negative, vanishes between equal positions and obeys the triangle
    inequality. *)
Record Metric (L : Leaflet) : Prop := mkMetric {
  distance_nonneg : forall a b, 0 <= distanceTo a b;
  distance_zero : forall a b, same_position a b -> distanceTo a b == 0;
  distance_triangle :
    forall a b c, distanceTo a c <= distanceTo a b + distanceTo b c
}.

(** The candidate routes a provider reply carries, as the component reads
    them: none when the request failed, the body is not JSON or it has no
    [routes]. *)
Definition candidates (reply : Osrm.Reply) : list Osrm.Route :=
  match reply with
  | Osrm.Json _ (Some routes) => routes
  | _ => []
  end.

(** A waypoint list that is missing or has fewer than two points. *)
Definition too_few (waypoints : option (list Point)) : Prop :=
  match waypoints with
  | None => True
  | Some w => (List.length w < 2)%nat
  end.

(** ** Stand-ins for Leaflet in the examples *)

(** 111320 m per degree along both axes. *)
Definition grid_distance (a b : LatLng) : Q :=
  111320 * (Qabs (lat a - lat b) + Qabs (lng a - lng b)).

(** A map that draws every path. *)
Definition grid_map : Leaflet :=
  {| distanceTo := grid_distance; renders := fun _ => true |}.

(** A map on which only paths of at most two points can be drawn. *)
Definition segment_map : Leaflet :=
  {| distanceTo := grid_distance;
     renders := fun path => (List.length path <=? 2)%nat |}.

(** A distance that is not additive along a straight line. *)
Definition square_map : Leaflet :=
  {| distanceTo := fun a b =>
       (lat a - lat b) * (lat a - lat b) + (lng a - lng b) * (lng a - lng b);
     renders := fun _ => true |}.

Definition no_refs : Refs := mkRefs None None.

Definition times_square : Point := (40.7580, -73.9855).
Definition central_park : Point := (40.7812, -73.9665).

(** Replace the travel time of a route, keeping everything else. *)
Definition with_totalTime (time : Lrm.IRoute -> Q) (r : Lrm.IRoute)
  : Lrm.IRoute :=
  Lrm.mkRoute (Lrm.mkSummary (Lrm.totalDistance (Lrm.summary r)) (time r))
              (Lrm.coordinates r).

Definition route_a : Lrm.IRoute := Lrm.mkRoute (Lrm.mkSummary 10 100) [].
Definition route_b : Lrm.IRoute := Lrm.mkRoute (Lrm.mkSummary 10 50) [].
Definition route_c : Lrm.IRoute := Lrm.mkRoute (Lrm.mkSummary 12 5) [].

(** The route the straight-line fallback reports for [start] and [end_]. *)
Definition direct_route `{Leaflet} (start end_ : Point) : RouteInfo :=
  mkRouteInfo
    (distanceTo (latLng start) (latLng end_))
    (distanceTo (latLng start) (latLng end_) / (40 * 1000 / 3600))
    [start; end_].

(** The route the interpolating fallback reports for [start] and [end_]. *)
Definition curved_route `{Leaflet} (start end_ : Point) : RouteInfo :=
  mkRouteInfo
    (RoutingMachine.totalDistance (RoutingMachine.wayPoints start end_))
    (RoutingMachine.totalDistance (RoutingMachine.wayPoints start end_)
     / (40 * 1000 / 3600))
    (RoutingMachine.wayPoints start end_).
(** The route the fallback chain reports: the interpolated one when its
    path can be drawn, the straight line otherwise. *)
Definition fallback_route `{Leaflet} (start end_ : Point) : RouteInfo :=
  if renders (map latLng (RoutingMachine.wayPoints start end_))
  then curved_route start end_
  else direct_route start end_.

(** The path of an OSRM route, turned from [[lng, lat]] to [[lat, lng]]. *)
Definition provider_path (g : list Point) : list Point :=
  map (fun coord => (snd coord, fst coord)) g.

(** The route of the provider that a reply lets the component show: that of
    its first candidate, when it has a geometry that is not empty and can be
    drawn.  [response.ok] plays no part. *)
Definition provider_route `{Leaflet} (reply : Osrm.Reply) : option RouteInfo :=
  match candidates reply with
  | route :: _ =>
      match Osrm.geometry route with
      | Some (c :: g) =>
          if renders (map latLng (provider_path (c :: g)))
          then Some (mkRouteInfo (Osrm.distance route) (Osrm.duration route)
                                 (provider_path (c :: g)))
          else None
      | _ => None
      end
  | [] => None
  end.

(** Does the component draw the empty line of a first candidate whose
    geometry is empty? *)
Definition empty_line_drawn `{Leaflet} (reply : Osrm.Reply) : bool :=
  match candidates reply with
  | route :: _ =>
      match Osrm.geometry route with
      | Some [] => renders []
      | _ => false
      end
  | [] => false
  end.

(** The route a resolution reports. *)
Definition resolved_route `{Leaflet} (start end_ : Point) (reply : Osrm.Reply)
  : RouteInfo :=
  match provider_route reply with
  | Some shown => shown
  | None => fallback_route start end_
  end.

(** ** Fares, emissions and travel times (single-page app) *)

(** [Math.max] and [Math.min]. *)
Definition Math_max (a b : Q) : Q := if Qle_bool a b then b else a.
Definition Math_min (a b : Q) : Q := if Qle_bool a b then a else b.

(** [x.toFixed(fractionDigits)], as the number its decimal string denotes:
    the sign is set aside, a magnitude from 10^21 on is printed as it is,
    a smaller one is replaced by the nearest multiple of
    10^(-fractionDigits), the larger of the two when it lies halfway. *)
Definition toFixed (fractionDigits : nat) (x : Q) : Q :=
  let scale := inject_Z (10 ^ Z.of_nat fractionDigits) in
  let digits (y : Q) :=
    if Qle_bool (inject_Z (10 ^ 21)) y then y
    else inject_Z (Qfloor (y * scale + 1 / 2)) / scale in
  if Qle_bool 0 x then digits x else - digits (- x).

(** [table[key]] on an object literal, for the keys it defines.  (For a
    name that every object inherits, such as [constructor], JavaScript finds
    the inherited member instead; no call site passes one.) *)
Fixpoint property {A} (key : string) (table : list (string * A)) : option A :=
  match table with
  | [] => None
  | (k, v) :: table' => if String.eqb key k then Some v else property key table'
  end.

Module UberRates.
Record t : Type := mk { basePrice : Q; perMile : Q; perMinute : Q; minFare : Q }.
End UberRates.

Module PublicRates.
Record t : Type := mk { basePrice : Q; perMile : Q; maxPrice : Q }.
End PublicRates.

Module Fares.

(** Sample data for demonstration, in the order of the object literal. *)
Definition uberPriceData : list (string * UberRates.t) :=
  [ ("UberX"%string, UberRates.mk 2.55 1.75 0.35 8.00);
    ("UberXL"%string, UberRates.mk 3.85 2.85 0.50 10.50);
    ("UberBlack"%string, UberRates.mk 7.00 3.75 0.65 15.00);
    ("UberPool"%string, UberRates.mk 2.00 1.35 0.30 6.50) ].

(** Public transport data. *)
Definition publicTransportData : list (string * PublicRates.t) :=
  [ ("Bus"%string, PublicRates.mk 2.75 0 2.75);
    ("Subway"%string, PublicRates.mk 2.75 0 2.75);
    ("Train"%string, PublicRates.mk 3.00 0.10 10.00) ].

(** CO2 emissions in g/km. *)
Definition emissionRates : list (string * Q) :=
  [ ("UberX"%string, 170); ("UberXL"%string, 210); ("UberBlack"%string, 230);
    ("UberPool"%string, 100); ("Bus"%string, 80); ("Subway"%string, 40);
    ("Train"%string, 60); ("Walking"%string, 0); ("Cycling"%string, 0) ].

(** The fare of one Uber type, lines 97-99. *)
Definition uberPrice (distanceMiles durationMinutes : Q) (rates : UberRates.t)
  : Q :=
  let price := UberRates.basePrice rates
               + distanceMiles * UberRates.perMile rates
               + durationMinutes * UberRates.perMinute rates in
  let price := Math_max price (UberRates.minFare rates) in
  toFixed 2 price.

(** [distance] in meters, [duration] in seconds; the result has one entry
    per key of [uberPriceData], in its order. *)
Definition calculateUberPrices (distance duration : Q) : list (string * Q) :=
  let distanceMiles := distance / 1609.34 in
  let durationMinutes := duration / 60 in
  map (fun entry =>
         (fst entry, uberPrice distanceMiles durationMinutes (snd entry)))
      uberPriceData.

(** The fare of one public transport type, lines 111-113. *)
Definition publicPrice (distanceMiles : Q) (rates : PublicRates.t) : Q :=
  let price := PublicRates.basePrice rates
               + distanceMiles * PublicRates.perMile rates in
  let price := Math_min price (PublicRates.maxPrice rates) in
  toFixed 2 price.

Definition calculatePublicTransportPrices (distance : Q) : list (string * Q) :=
  let distanceMiles := distance / 1609.34 in
  map (fun entry => (fst entry, publicPrice distanceMiles (snd entry)))
      publicTransportData.

(** [emissionRates[type] || 170]: a missing rate and a rate of 0 are both
    falsy. *)
Definition rateOrDefault (type : string) : Q :=
  match property type emissionRates with
  | Some rate => if Qeq_bool rate 0 then 170 else rate
  | None => 170
  end.

Definition estimateCO2 (type : string) (distance : Q) : Q :=
  let distanceKm := distance / 1000 in
  toFixed 0 (rateOrDefault type * distanceKm).

End Fares.

(** ** Geocoding (single-page app) *)

Module Geocode.

(** One entry of a geocoder's answer; both services give the coordinates as
    strings. *)
Record Hit : Type := mkHit { lat : string; lon : string }.

(** What [fetch] on a geocoder can give back.  [Answer ok body]: a response
    with [response.ok = ok]; [body] is [None] when [response.json()]
    rejects, and otherwise the entries of the parsed value (none for a value
    that is falsy or has no positive [length]). *)
Inductive Reply : Type :=
| Rejected
| Answer (ok : bool) (body : option (list Hit)).

Inductive Service : Type := LocationIQ | Nominatim.

Section Geocoder.
(** [parseFloat]. *)
Variable parseFloat : string -> Q.
(** The reply each service gives to the request for the address. *)
Variable reply : Service -> Reply.

(** [await fetch(...)], the [ok] test and [await response.json()] for one
    service: the entries, or [None] when any of the three throws. *)
Definition ask (service : Service) : option (list Hit) :=
  match reply service with
  | Rejected => None
  | Answer false _ => None
  | Answer true body => body
  end.

(** The services consulted, in order, and the coordinates found; [None]
    stands for the [Error("Failed to fetch location. Please try again.")]
    into which the [catch] turns every throw. *)
Definition geocodeAddress : list Service * option Point :=
  match ask LocationIQ with
  | None => ([LocationIQ], None)
  | Some (hit :: _) =>
      ([LocationIQ], Some (parseFloat (lat hit), parseFloat (lon hit)))
  | Some [] =>
      match ask Nominatim with
      | None => ([LocationIQ; Nominatim], None)
      | Some (hit :: _) =>
          ([LocationIQ; Nominatim],
           Some (parseFloat (lat hit), parseFloat (lon hit)))
      | Some [] => ([LocationIQ; Nominatim], None)
      end
  end.
End Geocoder.
End Geocode.

(** ** The App component (single-page app) *)

Module Info.
(** The [{ distance, duration }] object kept in [routeInfo]. *)
Record t : Type := mk { distance : Q; duration : Q }.
End Info.

Module App.

Record Destination : Type := mkDestination {
  address : string;
  coords : Point
}.

(** The state cells of [App] that its handlers write. *)
Record State : Type := mkState {
  toAddress : string;
  currentLocation : option Point;
  destinations : list Destination;
  waypoints : list Point;
  routeInfo : option Info.t;
  routeCoordinates : list Point;
  loading : bool;
  error : string;
  mapCenter : Point;
  locationPermissionGranted : bool;
  showCoordinates : bool;
  selectedTransportType : string
}.

(** The values given to [useState]. *)
Definition initial : State :=
  mkState "" None [] [] None [] false "" (40.7128, -74.0060) false false "all".

Definition setToAddress (v : string) (s : State) : State :=
  mkState v (currentLocation s) (destinations s) (waypoints s) (routeInfo s)
          (routeCoordinates s) (loading s) (error s) (mapCenter s)
          (locationPermissionGranted s) (showCoordinates s)
          (selectedTransportType s).

Definition setCurrentLocation (v : option Point) (s : State) : State :=
  mkState (toAddress s) v (destinations s) (waypoints s) (routeInfo s)
          (routeCoordinates s) (loading s) (error s) (mapCenter s)
          (locationPermissionGranted s) (showCoordinates s)
          (selectedTransportType s).

Definition setDestinations (f : list Destination -> list Destination)
    (s : State) : State :=
  mkState (toAddress s) (currentLocation s) (f (destinations s)) (waypoints s)
          (routeInfo s) (routeCoordinates s) (loading s) (error s)
          (mapCenter s) (locationPermissionGranted s) (showCoordinates s)
          (selectedTransportType s).

Definition setWaypoints (v : list Point) (s : State) : State :=
  mkState (toAddress s) (currentLocation s) (destinations s) v (routeInfo s)
          (routeCoordinates s) (loading s) (error s) (mapCenter s)
          (locationPermissionGranted s) (showCoordinates s)
          (selectedTransportType s).

Definition setRouteInfo (v : option Info.t) (s : State) : State :=
  mkState (toAddress s) (currentLocation s) (destinations s) (waypoints s) v
          (routeCoordinates s) (loading s) (error s) (mapCenter s)
          (locationPermissionGranted s) (showCoordinates s)
          (selectedTransportType s).

Definition setRouteCoordinates (v : list Point) (s : State) : State :=
  mkState (toAddress s) (currentLocation s) (destinations s) (waypoints s)
          (routeInfo s) v (loading s) (error s) (mapCenter s)
          (locationPermissionGranted s) (showCoordinates s)
          (selectedTransportType s).

Definition setLoading (v : bool) (s : State) : State :=
  mkState (toAddress s) (currentLocation s) (destinations s) (waypoints s)
          (routeInfo s) (routeCoordinates s) v (error s) (mapCenter s)
          (locationPermissionGranted s) (showCoordinates s)
          (selectedTransportType s).

Definition setError (v : string) (s : State) : State :=
  mkState (toAddress s) (currentLocation s) (destinations s) (waypoints s)
          (routeInfo s) (routeCoordinates s) (loading s) v (mapCenter s)
          (locationPermissionGranted s) (showCoordinates s)
          (selectedTransportType s).

Definition setMapCenter (v : Point) (s : State) : State :=
  mkState (toAddress s) (currentLocation s) (destinations s) (waypoints s)
          (routeInfo s) (routeCoordinates s) (loading s) (error s) v
          (locationPermissionGranted s) (showCoordinates s)
          (selectedTransportType s).

Definition setLocationPermissionGranted (v : bool) (s : State) : State :=
  mkState (toAddress s) (currentLocation s) (destinations s) (waypoints s)
          (routeInfo s) (routeCoordinates s) (loading s) (error s)
          (mapCenter s) v (showCoordinates s) (selectedTransportType s).

Definition setShowCoordinates (v : bool) (s : State) : State :=
  mkState (toAddress s) (currentLocation s) (destinations s) (waypoints s)
          (routeInfo s) (routeCoordinates s) (loading s) (error s)
          (mapCenter s) (locationPermissionGranted s) v
          (selectedTransportType s).

Definition setSelectedTransportType (v : string) (s : State) : State :=
  mkState (toAddress s) (currentLocation s) (destinations s) (waypoints s)
          (routeInfo s) (routeCoordinates s) (loading s) (error s)
          (mapCenter s) (locationPermissionGranted s) (showCoordinates s) v.

(** The success callback of [getCurrentPosition] in the mount effect. *)
Definition locationGranted (position : Point) (s : State) : State :=
  setLocationPermissionGranted true
    (setMapCenter position (setCurrentLocation (Some position) s)).

(** Its error callback; [message] is [err.message]. *)
Definition locationDenied (message : string) (s : State) : State :=
  setError ("Location permission denied: " ++ message) s.

Definition handleLocationUpdate (location : Point) (s : State) : State :=
  setCurrentLocation (Some location) s.

(** [addDestination] up to its [await]: [None] when it returns at once,
    otherwise the address whose coordinates are being fetched. *)
Definition addDestination_begin (s : State) : State * option string :=
  if String.eqb (toAddress s) ""
  then (setError "Please enter a destination" s, None)
  else (setLoading true (setError "" s), Some (toAddress s)).

(** [addDestination] after the [await]; [address] is the [toAddress] the
    call started with, [found] what [geocodeAddress] gave ([None]: it
    threw). *)
Definition addDestination_end (address : string) (found : option Point)
    (s : State) : State :=
  setLoading false
    match found with
    | Some coords =>
        setToAddress ""
          (setDestinations
             (fun prev => prev ++ [mkDestination address coords]) s)
    | None =>
        setError
          "Failed to geocode address. Please try a different location." s
    end.

Definition calculateRoute (destination : Destination) (s : State) : State :=
  match currentLocation s with
  | None => setError "Your current location is not available yet" s
  | Some here => setWaypoints [here; coords destination] s
  end.

(** [prev.filter((_, i) => i !== index)], [i] counting from [from]. *)
Fixpoint filter_index {A} (from index : nat) (prev : list A) : list A :=
  match prev with
  | [] => []
  | x :: prev' =>
      if Nat.eqb from index then filter_index (S from) index prev'
      else x :: filter_index (S from) index prev'
  end.

Definition removeDestination (index : nat) (s : State) : State :=
  setDestinations (filter_index 0 index) s.

Definition handleRoutesFound (info : RouteInfo) (s : State) : State :=
  setRouteCoordinates (coordinates info)
    (setRouteInfo (Some (Info.mk (distance info) (duration info))) s).

Definition toggleCoordinates (s : State) : State :=
  setShowCoordinates (negb (showCoordinates s)) s.

Definition filterTransportOptions (type : string) (s : State) : State :=
  setSelectedTransportType type s.

(** What can happen to a mounted [App]. *)
Inductive Action : Type :=
| LocationGranted (position : Point)
| LocationDenied (message : string)
| LocationUpdate (location : Point)
| TypeAddress (text : string)
| AddDestination
| GeocodeSettled (address : string) (found : option Point)
| CalculateRoute (destination : Destination)
| RemoveDestination (index : nat)
| RoutesFoundBy (info : RouteInfo)
| ToggleCoordinates
| FilterTransportOptions (type : string).

Definition step (s : State) (a : Action) : State :=
  match a with
  | LocationGranted position => locationGranted position s
  | LocationDenied message => locationDenied message s
  | LocationUpdate location => handleLocationUpdate location s
  | TypeAddress text => setToAddress text s
  | AddDestination => fst (addDestination_begin s)
  | GeocodeSettled address found => addDestination_end address found s
  | CalculateRoute destination => calculateRoute destination s
  | RemoveDestination index => removeDestination index s
  | RoutesFoundBy info => handleRoutesFound info s
  | ToggleCoordinates => toggleCoordinates s
  | FilterTransportOptions type => filterTransportOptions type s
  end.

Definition run (actions : list Action) (s : State) : State :=
  fold_left step actions s.


(** Walking and cycling times in minutes, lines 510-514. *)
Definition walkingSpeed : Q := 5.
Definition cyclingSpeed : Q := 15.

Definition walkingTime (routeInfo : option Info.t) : Z :=
  match routeInfo with
  | Some info =>
      RoutingMachine.Math_round
        (Info.distance info / 1000 / walkingSpeed * 60)
  | None => 0%Z
  end.

Definition cyclingTime (routeInfo : option Info.t) : Z :=
  match routeInfo with
  | Some info =>
      RoutingMachine.Math_round
        (Info.distance info / 1000 / cyclingSpeed * 60)
  | None => 0%Z
  end.

(** "Estimated driving time" and the time of every ride option. *)
Definition drivingTime (info : Info.t) : Z :=
  RoutingMachine.Math_round (Info.duration info / 60).

(** The time shown for a public transport option, lines 788-790. *)
Definition transitTime (type : string) (info : Info.t) : Z :=
  let transitTime := RoutingMachine.Math_round (Info.duration info / 60) in
  let transitTime :=
    if String.eqb type "Bus"
    then RoutingMachine.Math_round (inject_Z transitTime * 1.3)
    else transitTime in
  if String.eqb type "Subway"
  then RoutingMachine.Math_round (inject_Z transitTime * 0.8)
  else transitTime.

(** Strings made by [toFixed] are never empty, hence truthy; [parseFloat]
    gives back the number they denote. *)
Definition budgetSavingPercentage (routeInfo : option Info.t) : Z :=
  match routeInfo with
  | Some info =>
      let uberPrices :=
        Fares.calculateUberPrices (Info.distance info) (Info.duration info) in
      let publicPrices :=
        Fares.calculatePublicTransportPrices (Info.distance info) in
      match property "UberX" uberPrices, property "Bus" publicPrices with
      | Some uberX, Some bus =>
          RoutingMachine.Math_round ((1 - bus / uberX) * 100)
      | _, _ => 0%Z
      end
  | None => 0%Z
  end.

(** [options.sort((a, b) => a.emissions - b.emissions)]: ascending, and
    stable as the language requires, so that the result does not depend on
    the algorithm of the engine. *)
Fixpoint insert_option (o : string * Q) (sorted : list (string * Q))
  : list (string * Q) :=
  match sorted with
  | [] => [o]
  | o' :: sorted' =>
      if Qle_bool (snd o) (snd o') then o :: sorted
      else o' :: insert_option o sorted'
  end.

Definition sort_options (options : list (string * Q)) : list (string * Q) :=
  fold_right insert_option [] options.

(** The [options] array of [findMostEcoFriendly]. *)
Definition options (distance : Q) : list (string * Q) :=
  [ ("Walking"%string, 0);
    ("Cycling"%string, 0);
    ("Subway"%string, Fares.estimateCO2 "Subway" distance);
    ("Bus"%string, Fares.estimateCO2 "Bus" distance);
    ("Train"%string, Fares.estimateCO2 "Train" distance);
    ("UberPool"%string, Fares.estimateCO2 "UberPool" distance);
    ("UberX"%string, Fares.estimateCO2 "UberX" distance);
    ("UberXL"%string, Fares.estimateCO2 "UberXL" distance);
    ("UberBlack"%string, Fares.estimateCO2 "UberBlack" distance) ].

Definition findMostEcoFriendly (routeInfo : option Info.t) : option string :=
  match routeInfo with
  | None => None
  | Some info =>
      match sort_options (options (Info.distance info)) with
      | first :: _ => Some (fst first)
      | [] => None
      end
  end.

(** The saving in grams of CO2 of the eco tip, shown unless the most
    eco-friendly option is walking or cycling. *)
Definition co2Saving (mostEcoFriendly : string) (info : Info.t) : option Q :=
  if String.eqb mostEcoFriendly "Walking"
     || String.eqb mostEcoFriendly "Cycling"
  then None
  else Some (Fares.estimateCO2 "UberX" (Info.distance info)
             - Fares.estimateCO2 mostEcoFriendly (Info.distance info)).

End App.

(** ** Leaving the map *)

(** The function both components return from [useEffect]: it removes the
    routing control and the route line the refs hold, and leaves the refs
    as they are. *)
Definition cleanup : Eff unit :=
  r <- getRefs ;;
  when (truthy (routingControlRef r)) (emit RemoveControl) ;;
  when (truthy (routeLineRef r)) (emit RemoveLayer).

(** * Properties *)

(** ** Route selection in RouteTracker *)

Section RouteSelection.
Import Lrm RouteTracker.

Local Notation "'dist' r" := (totalDistance (summary r))
  (at level 10, r at level 9).

Lemma shorter_keeps (minRoute currentRoute : IRoute) :
  dist minRoute <= dist currentRoute ->
  shorter minRoute currentRoute = minRoute.
Proof.
  intros Hle. unfold shorter.
  destruct (Qlt_le_dec (dist currentRoute) (dist minRoute)) as [Hlt | _].
  - exfalso. apply (Qlt_not_le _ _ Hlt). exact Hle.
  - reflexivity.
Qed.

Lemma shorter_takes (minRoute currentRoute : IRoute) :
  dist currentRoute < dist minRoute ->
  shorter minRoute currentRoute = currentRoute.
Proof.
  intros Hlt. unfold shorter.
  destruct (Qlt_le_dec (dist currentRoute) (dist minRoute)) as [_ | Hle].
  - reflexivity.
  - exfalso. apply (Qlt_not_le _ _ Hlt). exact Hle.
Qed.

(** The scan either keeps its start value, which is then no longer than
    any element, or ends on the first element of least distance. *)
Lemma scan_invariant (routes : list IRoute) :
  forall acc,
    let r := fold_left shorter routes acc in
    (r = acc /\ forall x, In x routes -> dist acc <= dist x)
    \/ (exists i,
           nth_error routes i = Some r
           /\ dist r < dist acc
           /\ (forall x, In x routes -> dist r <= dist x)
           /\ (forall j x, (j < i)%nat -> nth_error routes j = Some x ->
                           dist r < dist x)).
Proof.
  induction routes as [| a routes IH]; intros acc; cbn zeta.
  - left. split; [reflexivity | intros x []].
  - cbn [fold_left].
    destruct (Qlt_le_dec (dist a) (dist acc)) as [Hlt | Hle].
    + rewrite (shorter_takes _ _ Hlt).
      destruct (IH a) as [[Heq Hall] | (i & Hi & Hlt' & Hall & Hfirst)].
      * right. exists 0%nat. rewrite Heq.
        split; [reflexivity |]. split; [exact Hlt |]. split.
        -- intros x [<- | Hx]; [apply Qle_refl | auto].
        -- intros j x Hj. inversion Hj.
      * right. exists (S i). split; [exact Hi |]. split; [| split].
        -- eapply Qlt_trans; eassumption.
        -- intros x [<- | Hx]; [apply Qlt_le_weak; exact Hlt' | auto].
        -- intros [| j] x Hj Hx; cbn in Hx.
           ++ injection Hx as <-. exact Hlt'.
           ++ apply (Hfirst j x); [lia | exact Hx].
    + rewrite (shorter_keeps _ _ Hle).
      destruct (IH acc) as [[Heq Hall] | (i & Hi & Hlt' & Hall & Hfirst)].
      * left. split; [exact Heq |].
        intros x [<- | Hx]; [exact Hle | auto].
      * right. exists (S i). split; [exact Hi |]. split; [exact Hlt' |].
        split.
        -- intros x [<- | Hx]; [| auto].
           apply Qlt_le_weak. eapply Qlt_le_trans; eassumption.
        -- intros [| j] x Hj Hx; cbn in Hx.
           ++ injection Hx as <-. eapply Qlt_le_trans; eassumption.
           ++ apply (Hfirst j x); [lia | exact Hx].
Qed.

(** What [shortestRoute] returns on a non-empty list. *)
Lemma shortestRoute_scan (r0 : IRoute) (rest : list IRoute) :
  exists r i,
    shortestRoute (r0 :: rest) = Some r
    /\ nth_error (r0 :: rest) i = Some r
    /\ (forall x, In x (r0 :: rest) -> dist r <= dist x)
    /\ (forall j x, (j < i)%nat -> nth_error (r0 :: rest) j = Some x ->
                    dist r < dist x).
Proof.
  unfold shortestRoute.
  destruct (scan_invariant (r0 :: rest) r0)
    as [[Heq Hall] | (i & Hi & Hlt & Hall & Hfirst)].
  - exists (fold_left shorter (r0 :: rest) r0), 0%nat.
    split; [reflexivity |]. rewrite Heq.
    split; [reflexivity |]. split; [exact Hall |].
    intros j x Hj. inversion Hj.
  - exists (fold_left shorter (r0 :: rest) r0), i.
    repeat split; assumption.
Qed.

Lemma shorter_with_totalTime (time : IRoute -> Q) (a b : IRoute) :
  shorter (with_totalTime time a) (with_totalTime time b)
  = with_totalTime time (shorter a b).
Proof.
  unfold shorter. cbn.
  destruct (Qlt_le_dec (dist b) (dist a)); reflexivity.
Qed.

Lemma scan_with_totalTime (time : IRoute -> Q) (routes : list IRoute) :
  forall acc,
    fold_left shorter (map (with_totalTime time) routes)
              (with_totalTime time acc)
    = with_totalTime time (fold_left shorter routes acc).
Proof.
  induction routes as [| a routes IH]; intros acc; cbn [map fold_left].
  - reflexivity.
  - rewrite shorter_with_totalTime. apply IH.
Qed.

(** C1. For every non-empty list of candidate routes, the route selected by
    [shortestRoute] is one of the candidates, no candidate has a smaller
    total distance, and every candidate listed before it is strictly
    longer: among the candidates of least distance the earliest one wins. *)
Theorem shortestRoute_first_minimum (routes : list IRoute) :
  routes <> [] ->
  exists r i,
    shortestRoute routes = Some r
    /\ nth_error routes i = Some r
    /\ (forall x, In x routes -> dist r <= dist x)
    /\ (forall j x, (j < i)%nat -> nth_error routes j = Some x ->
                    dist r < dist x).
Proof.
  destruct routes as [| r0 rest]; [congruence | intros _].
  apply shortestRoute_scan.
Qed.

Lemma shortestRoute_first_minimum_witness :
  [route_c; route_a; route_b] <> []
  /\ exists r i,
    shortestRoute [route_c; route_a; route_b] = Some r
    /\ nth_error [route_c; route_a; route_b] i = Some r
    /\ (forall x, In x [route_c; route_a; route_b] -> dist r <= dist x)
    /\ (forall j x, (j < i)%nat ->
                    nth_error [route_c; route_a; route_b] j = Some x ->
                    dist r < dist x).
Proof.
  split; [discriminate |].
  apply (shortestRoute_first_minimum [route_c; route_a; route_b]).
  discriminate.
Defined.

(** C8, as the component does it. When the provider returns candidates, the
    selected one has the least total distance and, among candidates of that
    distance, is the first seen; travel times play no part: replacing them
    by any others leaves the choice where it was. *)
Theorem shortestRoute_ignores_duration (routes : list IRoute) (r : IRoute) :
  shortestRoute routes = Some r ->
  (exists i,
      nth_error routes i = Some r
      /\ (forall x, In x routes -> dist r <= dist x)
      /\ (forall j x, (j < i)%nat -> nth_error routes j = Some x ->
                      dist r < dist x))
  /\ forall time : IRoute -> Q,
      shortestRoute (map (with_totalTime time) routes)
      = Some (with_totalTime time r).
Proof.
  intros Hsel. destruct routes as [| r0 rest]; [discriminate |]. split.
  - destruct (shortestRoute_scan r0 rest) as (r' & i & Hr' & Hi & Hmin & H1).
    rewrite Hsel in Hr'. injection Hr' as <-.
    exists i. repeat split; assumption.
  - intros time. cbn in Hsel. injection Hsel as <-.
    unfold shortestRoute. cbn [map].
    change (with_totalTime time r0 :: map (with_totalTime time) rest)
      with (map (with_totalTime time) (r0 :: rest)).
    rewrite scan_with_totalTime. reflexivity.
Qed.

Lemma shortestRoute_ignores_duration_witness :
  shortestRoute [route_a; route_b; route_c] = Some route_a
  /\ forall time : IRoute -> Q,
      shortestRoute (map (with_totalTime time) [route_a; route_b; route_c])
      = Some (with_totalTime time route_a).
Proof.
  split; [reflexivity |].
  apply (shortestRoute_ignores_duration [route_a; route_b; route_c] route_a).
  reflexivity.
Defined.

(** C8 as stated fails: of two candidates of equal distance the component
    returns the first, although the second takes half the time. *)
Lemma shortestRoute_tie_not_by_duration :
  dist route_a == dist route_b
  /\ totalTime (summary route_b) < totalTime (summary route_a)
  /\ shortestRoute [route_a; route_b] = Some route_a
  /\ ~ (forall r, shortestRoute [route_a; route_b] = Some r ->
        forall x, In x [route_a; route_b] -> dist x == dist r ->
                  totalTime (summary r) <= totalTime (summary x)).
Proof.
  split; [reflexivity |]. split; [reflexivity |]. split; [reflexivity |].
  intros Hclaim.
  assert (Hle : totalTime (summary route_a) <= totalTime (summary route_b)).
  { apply (Hclaim route_a eq_refl route_b).
    - right. left. reflexivity.
    - reflexivity. }
  apply (Qle_not_lt _ _ Hle). reflexivity.
Qed.
End RouteSelection.

(** ** Runs of the RoutingMachine tiers *)

(** Unfold the effect combinators, leaving arithmetic and Leaflet alone. *)
Ltac run_eff :=
  cbv beta iota zeta delta
    [bind ret throw emit getRefs setRouteLineRef setRoutingControlRef
     tryCatch detached when polyline fitBounds truthy completion refs trace
     app
     routingControlRef routeLineRef nth_error
     RoutingMachine.waypoint RoutingMachine.fetchJson].

(** ** The handler of RouteTracker *)

Section Handler.
Import Lrm RouteTracker.
Context `{L : Leaflet}.

(** The route handed to the parent is the selected one, shown with the
    hints of a provider route, when its coordinates are not empty. *)
Lemma routesfound_reports_shortest (highlightShortest : bool)
    (routes : list IRoute) (shortest : IRoute) (r : Refs) :
  shortestRoute routes = Some shortest ->
  coordinates shortest <> [] ->
  (highlightShortest = true -> renders (coordinates shortest) = true) ->
  callbacks (trace (routesfound highlightShortest true routes r))
  = [mkRouteInfo (totalDistance (summary shortest))
                 (totalTime (summary shortest))
                 (map (fun coord => (lat coord, lng coord))
                      (coordinates shortest))]
  /\ hints (trace (routesfound highlightShortest true routes r))
     = [((50, 50), 15)%Z].
Proof.
  intros Hsel Hpath Hdraw. unfold routesfound. rewrite Hsel.
  destruct (coordinates shortest) as [| c0 path] eqn:Hc; [congruence |].
  destruct highlightShortest.
  - run_eff. rewrite (Hdraw eq_refl).
    destruct r as [c [l |]]; split; reflexivity.
  - split; reflexivity.
Qed.
End Handler.

Section Tiers.
Import RoutingMachine.
Context `{L : Leaflet}.
Variables (start end_ : Point) (rest : list Point).

Lemma wayPoints_lerp :
  wayPoints start end_
  = [start; lerp 0.33 start end_; lerp 0.66 start end_; end_].
Proof. destruct start, end_. reflexivity. Qed.

(** A run of the straight-line fallback on a map that draws the segment. *)
Lemma createSimpleDirectRoute_run (cb : bool) (r : Refs) :
  renders [latLng start; latLng end_] = true ->
  createSimpleDirectRoute (start :: end_ :: rest) cb r
  = mkRun (Normal tt)
      (mkRefs (routingControlRef r) (Some [latLng start; latLng end_]))
      ([AddPolyline [latLng start; latLng end_];
        FitBounds [latLng start; latLng end_] (150, 150)%Z 1%Z]
       ++ if cb then [RoutesFound (direct_route start end_)] else []).
Proof.
  intros Hdraw. destruct start, end_.
  unfold createSimpleDirectRoute, direct_route.
  run_eff. rewrite Hdraw. destruct cb; reflexivity.
Qed.

(** ... and on a map that refuses it. *)
Lemma createSimpleDirectRoute_throws (cb : bool) (r : Refs) :
  renders [latLng start; latLng end_] = false ->
  createSimpleDirectRoute (start :: end_ :: rest) cb r = mkRun Thrown r [].
Proof.
  intros Hdraw. destruct start, end_.
  unfold createSimpleDirectRoute.
  run_eff. rewrite Hdraw. reflexivity.
Qed.

(** A run of the interpolating fallback when its path can be drawn. *)
Lemma createFallbackRoute_run (cb : bool) (r : Refs) :
  renders (map latLng (wayPoints start end_)) = true ->
  createFallbackRoute (start :: end_ :: rest) cb r
  = mkRun (Normal tt)
      (mkRefs (routingControlRef r)
              (Some (map latLng (wayPoints start end_))))
      ([AddPolyline (map latLng (wayPoints start end_));
        FitBounds (map latLng (wayPoints start end_)) (150, 150)%Z 13%Z]
       ++ if cb then [RoutesFound (curved_route start end_)] else []).
Proof.
  intros Hdraw.
  unfold createFallbackRoute, curved_route. run_eff.
  rewrite Hdraw. destruct cb; reflexivity.
Qed.

(** When drawing the interpolated path throws, the handler logs and hands
    over to the straight line. *)
Lemma createFallbackRoute_falls (cb : bool) (r : Refs) :
  renders (map latLng (wayPoints start end_)) = false ->
  createFallbackRoute (start :: end_ :: rest) cb r
  = mkRun (completion (createSimpleDirectRoute (start :: end_ :: rest) cb r))
          (refs (createSimpleDirectRoute (start :: end_ :: rest) cb r))
          (ConsoleError "Fallback route calculation error:"
           :: trace (createSimpleDirectRoute (start :: end_ :: rest) cb r)).
Proof.
  intros Hdraw.
  unfold createFallbackRoute.
  generalize (createSimpleDirectRoute (start :: end_ :: rest) cb).
  intros direct.
  run_eff. rewrite Hdraw. reflexivity.
Qed.
End Tiers.

Ltac no_rejection :=
  let H := fresh in
  intros H; cbn [In app] in H;
  repeat (destruct H as [H | H]; [discriminate H |]);
  try contradiction; auto.

Lemma callbacks_app (a b : list Event) :
  callbacks (a ++ b) = callbacks a ++ callbacks b.
Proof.
  induction a as [| [] a IH]; cbn; rewrite ?IH; reflexivity.
Qed.

Lemma drawn_app (a b : list Event) : drawn (a ++ b) = drawn a ++ drawn b.
Proof.
  induction a as [| [] a IH]; cbn; rewrite ?IH; reflexivity.
Qed.

Lemma requests_app (a b : list Event) :
  requests (a ++ b) = requests a ++ requests b.
Proof.
  induction a as [| [] a IH]; cbn; rewrite ?IH; reflexivity.
Qed.

Section Resolver.
Import RoutingMachine.
Context `{L : Leaflet}.
Variables (start end_ : Point) (rest : list Point).
Hypothesis segment_drawn : renders [latLng start; latLng end_] = true.

(** The fallback chain always completes, calls back once when a callback is
    supplied, draws the path it reports, keeps it in the ref and asks no
    provider. *)
Lemma createFallbackRoute_total (cb : bool) (r : Refs) :
  exists r' t,
    createFallbackRoute (start :: end_ :: rest) cb r = mkRun (Normal tt) r' t
    /\ callbacks t = (if cb then [fallback_route start end_] else [])
    /\ requests t = []
    /\ ~ In UnhandledRejection t
    /\ drawn t = [map latLng (coordinates (fallback_route start end_))]
    /\ routeLineRef r'
       = Some (map latLng (coordinates (fallback_route start end_))).
Proof.
  unfold fallback_route.
  destruct (renders (map latLng (wayPoints start end_))) eqn:Hcurve.
  - rewrite (createFallbackRoute_run start end_ rest cb r Hcurve).
    eexists; eexists; split; [reflexivity |].
    destruct cb;
      (split; [reflexivity |]; split; [reflexivity |];
       split; [no_rejection |]; split; reflexivity).
  - rewrite (createFallbackRoute_falls start end_ rest cb r Hcurve).
    rewrite (createSimpleDirectRoute_run start end_ rest cb r segment_drawn).
    cbn [completion refs trace].
    eexists; eexists; split; [reflexivity |].
    destruct cb;
      (split; [reflexivity |]; split; [reflexivity |];
       split; [no_rejection |]; split; reflexivity).
Qed.

(** The fallback chain at the end of a run that has sent the request and
    neither called back nor left a rejection so far. *)
Lemma fallback_tail (pre : list Event) (r : Refs) :
  requests pre = [[start; end_]] ->
  callbacks pre = [] ->
  ~ In UnhandledRejection pre ->
  exists r' t,
    createFallbackRoute (start :: end_ :: rest) true r = mkRun (Normal tt) r' t
    /\ requests (pre ++ t) = [[start; end_]]
    /\ ~ In UnhandledRejection (pre ++ t)
    /\ callbacks (pre ++ t) = [fallback_route start end_]
    /\ drawn (pre ++ t)
       = drawn pre ++ [map latLng (coordinates (fallback_route start end_))]
    /\ routeLineRef r'
       = Some (map latLng (coordinates (fallback_route start end_))).
Proof.
  intros Hreq Hcb Hrej.
  destruct (createFallbackRoute_total true r)
    as (rf & tf & Hf & Hcb' & Hreq' & Hrej' & Hdr & Href).
  exists rf, tf. split; [exact Hf |].
  rewrite requests_app, callbacks_app, drawn_app, Hreq, Hcb, Hreq', Hcb', Hdr.
  split; [reflexivity |]. split.
  - intros Hin. apply in_app_or in Hin. tauto.
  - split; [reflexivity |]. split; [reflexivity | exact Href].
Qed.

Lemma resolved_route_without_candidates (reply : Osrm.Reply) :
  candidates reply = [] ->
  resolved_route start end_ reply = fallback_route start end_.
Proof.
  intros H. unfold resolved_route, provider_route. rewrite H. reflexivity.
Qed.

Ltac use_fallback pre :=
  match goal with
  | |- context [createFallbackRoute _ _ ?r0] =>
      let rf := fresh "rf" in
      let tf := fresh "tf" in
      destruct (fallback_tail pre r0)
        as (rf & tf & -> & ? & ? & ? & ? & ?);
      [reflexivity | reflexivity | no_rejection |];
      exists rf, (pre ++ tf); split; [reflexivity |];
      repeat split; assumption
  end.

(** [fetchRoute] never throws; it sends one request and calls back once,
    with the route of the first candidate when that can be drawn and fitted
    and with the fallback route otherwise; the path reported is the last
    one drawn and the one the ref holds. *)
Lemma fetchRoute_total (reply : Osrm.Reply) (r : Refs) :
  exists r' t,
    fetchRoute (start :: end_ :: rest) true reply r = mkRun (Normal tt) r' t
    /\ requests t = [[start; end_]]
    /\ ~ In UnhandledRejection t
    /\ callbacks t = [resolved_route start end_ reply]
    /\ drawn t
       = (if empty_line_drawn reply then [[]] else [])
         ++ [map latLng (coordinates (resolved_route start end_ reply))]
    /\ routeLineRef r'
       = Some (map latLng (coordinates (resolved_route start end_ reply))).
Proof.
  unfold resolved_route, provider_route, empty_line_drawn.
  destruct reply as [| ok | ok [[| route others] |]]; cbn [candidates].
  - unfold fetchRoute. run_eff.
    use_fallback [ProviderRequest [start; end_];
                  ConsoleError "Route calculation error:"].
  - unfold fetchRoute. run_eff.
    use_fallback [ProviderRequest [start; end_];
                  ConsoleError "Route calculation error:"].
  - unfold fetchRoute. run_eff.
    use_fallback [ProviderRequest [start; end_]].
  - destruct route as [d t [[| c g] |]]; cbn [Osrm.geometry Osrm.distance
      Osrm.duration].
    + unfold fetchRoute. run_eff. cbn [Osrm.geometry map].
      destruct (renders []) eqn:Hdraw.
      * use_fallback [ProviderRequest [start; end_]; AddPolyline [];
                      ConsoleError "Route calculation error:"].
      * use_fallback [ProviderRequest [start; end_];
                      ConsoleError "Route calculation error:"].
    + unfold provider_path. cbn [map].
      unfold fetchRoute. run_eff. cbn [Osrm.geometry map].
      match goal with
      | |- context [renders ?p] => destruct (renders p) eqn:Hdraw
      end.
      * do 2 eexists. split; [reflexivity |].
        split; [reflexivity |]. split; [no_rejection |].
        split; [reflexivity |]. split; reflexivity.
      * use_fallback [ProviderRequest [start; end_];
                      ConsoleError "Route calculation error:"].
    + unfold fetchRoute. run_eff. cbn [Osrm.geometry].
      use_fallback [ProviderRequest [start; end_];
                    ConsoleError "Route calculation error:"].
  - unfold fetchRoute. run_eff.
    use_fallback [ProviderRequest [start; end_]].
Qed.

(** The same for the whole effect, which first clears what the refs hold. *)
Lemma effect_total (reply : Osrm.Reply) (r : Refs) :
  exists r' t,
    effect true (Some (start :: end_ :: rest)) reply r = mkRun (Normal tt) r' t
    /\ requests t = [[start; end_]]
    /\ ~ In UnhandledRejection t
    /\ callbacks t = [resolved_route start end_ reply]
    /\ drawn t
       = (if empty_line_drawn reply then [[]] else [])
         ++ [map latLng (coordinates (resolved_route start end_ reply))]
    /\ routeLineRef r'
       = Some (map latLng (coordinates (resolved_route start end_ reply))).
Proof.
  unfold effect. cbn [List.length Nat.ltb Nat.leb].
  destruct r as [[c |] [l |]]; run_eff;
    match goal with
    | |- context [fetchRoute _ _ _ ?r0] =>
        destruct (fetchRoute_total reply r0)
          as (rf & t & -> & Hreq & Hrej & Hcb & Hdr & Href)
    end;
    do 2 eexists; (split; [reflexivity |]); cbn [requests callbacks drawn];
    (split; [exact Hreq |]);
    (split; [no_rejection |]);
    (split; [exact Hcb |]); (split; [exact Hdr | exact Href]).
Qed.
End Resolver.

(** ** The distance loop of the interpolating fallback *)

Section DistanceLoop.
Import RoutingMachine.
Context `{L : Leaflet}.

Lemma fold_left_shift {A} (f : A -> nat -> A) (l : list nat) :
  forall acc,
    fold_left f (map S l) acc = fold_left (fun a i => f a (S i)) l acc.
Proof.
  induction l as [| i l IH]; intros acc; cbn [map fold_left].
  - reflexivity.
  - apply IH.
Qed.

(** The index loop adds up the legs of the path, whatever it starts from. *)
Lemma distance_loop (wayPoints : list Point) :
  forall acc,
    fold_left
      (fun totalDistance i =>
         totalDistance
         + distanceTo (latLng (nth i wayPoints (0, 0)))
                      (latLng (nth (i + 1) wayPoints (0, 0))))
      (seq 0 (List.length wayPoints - 1)) acc
    == acc + path_length (map latLng wayPoints).
Proof.
  induction wayPoints as [| a wayPoints IH]; intros acc.
  - cbn. ring.
  - destruct wayPoints as [| b l].
    + cbn. ring.
    + replace (List.length (a :: b :: l) - 1)%nat
        with (S (List.length (b :: l) - 1))
        by (cbn [List.length]; lia).
      cbn [seq]. rewrite <- seq_shift. cbn [fold_left].
      rewrite fold_left_shift.
      change (fold_left
                (fun totalDistance i =>
                   totalDistance
                   + distanceTo (latLng (nth i (b :: l) (0, 0)))
                                (latLng (nth (i + 1) (b :: l) (0, 0))))
                (seq 0 (List.length (b :: l) - 1))
                (acc + distanceTo (latLng a) (latLng b))
              == acc + path_length (map latLng (a :: b :: l))).
      rewrite IH. cbn [map path_length]. ring.
Qed.

Lemma totalDistance_path_length (wayPoints : list Point) :
  totalDistance wayPoints == path_length (map latLng wayPoints).
Proof.
  unfold totalDistance. rewrite distance_loop. ring.
Qed.
End DistanceLoop.

(** ** The resolver as a whole *)

Section Resolution.
Import RoutingMachine.
Context `{L : Leaflet}.
Variables (start end_ : Point) (rest : list Point).

(** C2, as the component does it. For every two waypoints whose connecting
    segment the map can draw, a resolution completes whatever the provider
    answers: [fetchRoute] never throws, no rejection is left unhandled, one
    request is sent, and the callback is invoked exactly once.  The route
    handed over is that of the first candidate when it has a geometry that
    is not empty and can be drawn, and the one of the fallback chain
    otherwise: in particular whenever the reply carries no candidate
    (rejected request, unreadable body, no or empty [routes]).  The status
    of the response is not consulted: two replies that differ in it only
    are resolved alike. *)
Theorem resolution_calls_back_once (reply : Osrm.Reply) (r : Refs) :
  renders [latLng start; latLng end_] = true ->
  let run := effect true (Some (start :: end_ :: rest)) reply r in
  completion run = Normal tt
  /\ ~ In UnhandledRejection (trace run)
  /\ requests (trace run) = [[start; end_]]
  /\ (exists info,
         callbacks (trace run) = [info]
         /\ info = resolved_route start end_ reply
         /\ (candidates reply = [] -> info = fallback_route start end_))
  /\ (forall r',
        completion (fetchRoute (start :: end_ :: rest) true reply r')
        = Normal tt)
  /\ (forall ok ok' routes,
        effect true (Some (start :: end_ :: rest)) (Osrm.Json ok routes) r
        = effect true (Some (start :: end_ :: rest)) (Osrm.Json ok' routes) r).
Proof.
  intros Hseg run. subst run.
  destruct (effect_total start end_ rest Hseg reply r)
    as (rf & t & -> & Hreq & Hrej & Hcb & _).
  cbn [completion trace].
  split; [reflexivity |]. split; [exact Hrej |]. split; [exact Hreq |].
  split; [| split].
  - exists (resolved_route start end_ reply).
    split; [exact Hcb |]. split; [reflexivity |].
    intros Hnone. apply resolved_route_without_candidates. exact Hnone.
  - intros r'.
    destruct (fetchRoute_total start end_ rest Hseg reply r')
      as (rf' & t' & -> & _). reflexivity.
  - reflexivity.
Qed.

(** C3, as the component does it. The interpolating fallback draws and
    reports an ordered path of exactly 4 points: the origin, the points at
    0.33 and at 0.66 of the way from origin to destination, and the
    destination. *)
Theorem tier1_path_shape (r : Refs) :
  renders (map latLng (wayPoints start end_)) = true ->
  let run := createFallbackRoute (start :: end_ :: rest) true r in
  exists info,
    callbacks (trace run) = [info]
    /\ drawn (trace run) = [map latLng (coordinates info)]
    /\ List.length (coordinates info) = 4%nat
    /\ coordinates info
       = [start; lerp 0.33 start end_; lerp 0.66 start end_; end_].
Proof.
  intros Hdraw run. subst run.
  rewrite (createFallbackRoute_run start end_ rest true r Hdraw).
  exists (curved_route start end_). cbn [trace app callbacks drawn].
  unfold curved_route. cbn [coordinates].
  split; [reflexivity |]. split; [reflexivity |].
  rewrite wayPoints_lerp. split; reflexivity.
Qed.

(** C4. The distance the interpolating fallback reports is the sum of the
    distances between consecutive points of the 4-point path it reports:
    origin to first midpoint, midpoint to midpoint, second midpoint to
    destination. *)
Theorem tier1_distance_piecewise (r : Refs) :
  renders (map latLng (wayPoints start end_)) = true ->
  exists info p0 p1 p2 p3,
    callbacks (trace (createFallbackRoute (start :: end_ :: rest) true r))
    = [info]
    /\ map latLng (coordinates info) = [p0; p1; p2; p3]
    /\ distance info == path_length (map latLng (coordinates info))
    /\ distance info
       == distanceTo p0 p1 + distanceTo p1 p2 + distanceTo p2 p3.
Proof.
  intros Hdraw.
  rewrite (createFallbackRoute_run start end_ rest true r Hdraw).
  exists (curved_route start end_). cbn [trace app callbacks].
  unfold curved_route. cbn [coordinates distance].
  do 4 eexists. split; [reflexivity |]. split; [reflexivity |].
  split.
  - apply totalDistance_path_length.
  - rewrite totalDistance_path_length. cbn [wayPoints map path_length]. ring.
Qed.

(** C6. Whenever the straight-line fallback runs, it draws and reports the
    two-point path origin, destination, and the distance it reports is
    [distanceTo] between the two; this is also what the fallback chain
    delivers when the interpolated path cannot be drawn. *)
Theorem tier2_straight_line (r : Refs) :
  renders [latLng start; latLng end_] = true ->
  let run := createSimpleDirectRoute (start :: end_ :: rest) true r in
  completion run = Normal tt
  /\ drawn (trace run) = [[latLng start; latLng end_]]
  /\ exists info,
      callbacks (trace run) = [info]
      /\ coordinates info = [start; end_]
      /\ distance info = distanceTo (latLng start) (latLng end_)
      /\ (renders (map latLng (wayPoints start end_)) = false ->
          callbacks
            (trace (createFallbackRoute (start :: end_ :: rest) true r))
          = [info]).
Proof.
  intros Hseg run. subst run.
  rewrite (createSimpleDirectRoute_run start end_ rest true r Hseg).
  cbn [completion trace app drawn callbacks].
  split; [reflexivity |]. split; [reflexivity |].
  exists (direct_route start end_).
  split; [reflexivity |]. split; [reflexivity |]. split; [reflexivity |].
  intros Hcurve.
  rewrite (createFallbackRoute_falls start end_ rest true r Hcurve).
  rewrite (createSimpleDirectRoute_run start end_ rest true r Hseg).
  reflexivity.
Qed.

(** C7, as the component does it. The view hints passed to [fitBounds]
    are: padding 50 and maximum zoom 15 for a route of the provider, which
    is a first candidate whose geometry is not empty and can be drawn;
    padding 150 and maximum zoom 13 for the interpolating fallback;
    padding 150 and maximum zoom 1 for the straight-line fallback. *)
Theorem hints_by_tier (cb ok : bool) (route : Osrm.Route)
    (others : list Osrm.Route) (g : list Point) (r : Refs) :
  (Osrm.geometry route = Some g ->
   g <> [] ->
   renders (map latLng (provider_path g)) = true ->
   hints (trace (fetchRoute (start :: end_ :: rest) cb
                   (Osrm.Json ok (Some (route :: others))) r))
   = [((50, 50), 15)%Z])
  /\ (renders (map latLng (wayPoints start end_)) = true ->
      hints (trace (createFallbackRoute (start :: end_ :: rest) cb r))
      = [((150, 150), 13)%Z])
  /\ (renders [latLng start; latLng end_] = true ->
      hints (trace (createSimpleDirectRoute (start :: end_ :: rest) cb r))
      = [((150, 150), 1)%Z]).
Proof.
  split; [| split].
  - intros Hg Hpath Hdraw. destruct g as [| c g]; [congruence |].
    unfold fetchRoute. run_eff. rewrite Hg.
    unfold provider_path in Hdraw. cbn [map] in *. rewrite Hdraw.
    destruct cb; reflexivity.
  - intros Hdraw.
    rewrite (createFallbackRoute_run start end_ rest cb r Hdraw).
    destruct cb; reflexivity.
  - intros Hseg.
    rewrite (createSimpleDirectRoute_run start end_ rest cb r Hseg).
    destruct cb; reflexivity.
Qed.
End Resolution.

(** ** Durations, guards and the two fallback distances *)

Section Fallbacks.
Import RoutingMachine.
Context `{L : Leaflet}.

(** What the two fallbacks can hand to the callback. *)
Lemma fallback_callbacks (waypoints : list Point) (cb : bool) (r : Refs)
    (info : RouteInfo) :
  In info (callbacks (trace (createFallbackRoute waypoints cb r)))
  \/ In info (callbacks (trace (createSimpleDirectRoute waypoints cb r))) ->
  exists start end_ rest,
    waypoints = start :: end_ :: rest
    /\ (info = curved_route start end_ \/ info = direct_route start end_).
Proof.
  destruct waypoints as [| start [| end_ rest]].
  - unfold createFallbackRoute, createSimpleDirectRoute. run_eff.
    cbn. tauto.
  - unfold createFallbackRoute, createSimpleDirectRoute. run_eff.
    cbn. tauto.
  - intros Hin. exists start, end_, rest. split; [reflexivity |].
    assert (Hdirect :
              In info (callbacks (trace (createSimpleDirectRoute
                                           (start :: end_ :: rest) cb r))) ->
              info = direct_route start end_).
    { destruct (renders [latLng start; latLng end_]) eqn:Hseg.
      - rewrite (createSimpleDirectRoute_run start end_ rest cb r Hseg).
        destruct cb; cbn; [intros [<- | []]; reflexivity | tauto].
      - rewrite (createSimpleDirectRoute_throws start end_ rest cb r Hseg).
        cbn. tauto. }
    destruct Hin as [Hin | Hin]; [| right; apply Hdirect; exact Hin].
    destruct (renders (map latLng (wayPoints start end_))) eqn:Hcurve.
    + rewrite (createFallbackRoute_run start end_ rest cb r Hcurve) in Hin.
      destruct cb; cbn in Hin; [| tauto].
      destruct Hin as [<- | []]. left. reflexivity.
    + rewrite (createFallbackRoute_falls start end_ rest cb r Hcurve) in Hin.
      right. apply Hdirect. exact Hin.
Qed.

(** C5. Whatever route a fallback tier hands to the callback, its duration
    in seconds is its distance in meters divided by 40 km/h in meters per
    second, that is by 100/9; the fallback itself does not round, and the
    minutes shown for it are the quotient rounded by the same
    [Math.round(duration / 60)] as for any other route. *)
Theorem fallback_duration (waypoints : list Point) (cb : bool) (r : Refs)
    (info : RouteInfo) :
  In info (callbacks (trace (createFallbackRoute waypoints cb r)))
  \/ In info (callbacks (trace (createSimpleDirectRoute waypoints cb r))) ->
  duration info == distance info / (40 * 1000 / 3600)
  /\ duration info * (100 / 9) == distance info
  /\ estimatedDrivingTime info
     = Math_round (distance info / (40 * 1000 / 3600) / 60).
Proof.
  intros Hin.
  destruct (fallback_callbacks waypoints cb r info Hin)
    as (start & end_ & rest & _ & Hinfo).
  assert (Hdur : duration info == distance info / (40 * 1000 / 3600)).
  { destruct Hinfo as [-> | ->]; reflexivity. }
  split; [exact Hdur |]. split.
  - rewrite Hdur. field.
  - unfold estimatedDrivingTime, Math_round. apply Qfloor_comp.
    rewrite Hdur. reflexivity.
Qed.

(** C9. When the waypoint list is missing or has fewer than two points,
    RoutingMachine does nothing at all, and RouteTracker, having cleared
    what it showed before, stops: neither asks a provider, draws a route
    or invokes the callback. *)
Theorem no_resolution_without_two_waypoints (cb : bool)
    (waypoints : option (list Point)) (reply : Osrm.Reply) (r : Refs) :
  too_few waypoints ->
  effect cb waypoints reply r = mkRun (Normal tt) r []
  /\ requests (trace (RouteTracker.effect waypoints r)) = []
  /\ drawn (trace (RouteTracker.effect waypoints r)) = []
  /\ callbacks (trace (RouteTracker.effect waypoints r)) = [].
Proof.
  intros Hfew.
  assert (Hguard : match waypoints with
                   | None => True
                   | Some w => (List.length w <? 2)%nat = true
                   end).
  { destruct waypoints as [w |]; [| exact I].
    apply Nat.ltb_lt. exact Hfew. }
  unfold effect, RouteTracker.effect.
  destruct waypoints as [w |]; [rewrite Hguard |];
    (split; [reflexivity |]);
    destruct r as [[c |] [l |]]; repeat split; reflexivity.
Qed.

Variables (start end_ : Point) (rest : list Point).
Hypothesis great_circle : Metric L.

Lemma interpolated_same (a b t : Q) : a == b -> a + (b - a) * t == a.
Proof. intros ->. ring. Qed.

(** In exact arithmetic, and for a [distanceTo] that obeys the laws of a
    distance, the distance reported by the interpolating fallback is at
    least the one reported by the straight-line fallback, by the triangle
    inequality; both are non-negative, and both are 0 when origin and
    destination coincide.  (Leaflet computes [distanceTo] in binary64, where
    these laws hold up to rounding only: this is a statement about the
    shape of the computation, not about its rounded values.) *)
Theorem curved_not_shorter_than_direct (r1 r2 : Refs)
    (info1 info2 : RouteInfo) :
  renders (map latLng (wayPoints start end_)) = true ->
  In info1
     (callbacks (trace (createFallbackRoute (start :: end_ :: rest) true r1)))
  ->
  In info2
     (callbacks
        (trace (createSimpleDirectRoute (start :: end_ :: rest) true r2))) ->
  distance info2 <= distance info1
  /\ 0 <= distance info2
  /\ 0 <= distance info1
  /\ (same_point start end_ -> distance info1 == 0 /\ distance info2 == 0).
Proof.
  intros Hcurve Hin1 Hin2.
  rewrite (createFallbackRoute_run start end_ rest true r1 Hcurve) in Hin1.
  cbn in Hin1. destruct Hin1 as [<- | []].
  assert (Hinfo2 : info2 = direct_route start end_).
  { destruct (renders [latLng start; latLng end_]) eqn:Hseg.
    - rewrite (createSimpleDirectRoute_run start end_ rest true r2 Hseg)
        in Hin2.
      cbn in Hin2. destruct Hin2 as [<- | []]. reflexivity.
    - rewrite (createSimpleDirectRoute_throws start end_ rest true r2 Hseg)
        in Hin2.
      destruct Hin2. }
  subst info2. unfold curved_route, direct_route. cbn [distance].
  rewrite totalDistance_path_length. cbn [wayPoints map path_length].
  destruct great_circle as [Hpos Hzero Htri].
  set (p0 := latLng (fst start, snd start)).
  set (p1 := latLng (fst start + (fst end_ - fst start) * 0.33,
                     snd start + (snd end_ - snd start) * 0.33)).
  set (p2 := latLng (fst start + (fst end_ - fst start) * 0.66,
                     snd start + (snd end_ - snd start) * 0.66)).
  set (p3 := latLng (fst end_, snd end_)).
  assert (E0 : latLng start = p0) by (destruct start; reflexivity).
  assert (E3 : latLng end_ = p3) by (destruct end_; reflexivity).
  rewrite E0, E3.
  pose proof (Hpos p0 p1) as N01. pose proof (Hpos p1 p2) as N12.
  pose proof (Hpos p2 p3) as N23. pose proof (Hpos p0 p3) as N03.
  pose proof (Htri p0 p1 p3) as T1. pose proof (Htri p1 p2 p3) as T2.
  split; [lra |]. split; [lra |]. split; [lra |].
  intros [Hlat Hlng].
  assert (Z01 : distanceTo p0 p1 == 0).
  { apply Hzero. split; cbn; symmetry; apply interpolated_same; assumption. }
  assert (Z03 : distanceTo p0 p3 == 0).
  { apply Hzero. split; cbn; assumption. }
  assert (Z12 : distanceTo p1 p2 == 0).
  { apply Hzero. split; cbn.
    - rewrite !interpolated_same by assumption. reflexivity.
    - rewrite !interpolated_same by assumption. reflexivity. }
  assert (Z23 : distanceTo p2 p3 == 0).
  { apply Hzero. split; cbn.
    - rewrite interpolated_same by assumption. assumption.
    - rewrite interpolated_same by assumption. assumption. }
  split; lra.
Qed.
End Fallbacks.

(** ** Concrete runs *)

Section Examples.
Import RoutingMachine.

Lemma grid_map_metric : Metric grid_map.
Proof.
  constructor; cbn [distanceTo grid_map]; unfold grid_distance.
  - intros a b.
    pose proof (Qabs_nonneg (lat a - lat b)).
    pose proof (Qabs_nonneg (lng a - lng b)). nra.
  - intros a b [Hlat Hlng].
    assert (E1 : lat a - lat b == 0) by lra.
    assert (E2 : lng a - lng b == 0) by lra.
    rewrite E1, E2. reflexivity.
  - intros a b c.
    pose proof (Qabs_triangle (lat a - lat b) (lat b - lat c)) as T1.
    pose proof (Qabs_triangle (lng a - lng b) (lng b - lng c)) as T2.
    assert (E1 : lat a - lat b + (lat b - lat c) == lat a - lat c) by ring.
    assert (E2 : lng a - lng b + (lng b - lng c) == lng a - lng c) by ring.
    rewrite E1 in T1. rewrite E2 in T2. lra.
Qed.

Lemma resolution_calls_back_once_witness :
  @renders grid_map [latLng (0, 0); latLng (3, 3)] = true
  /\ (let run :=
        @effect grid_map true (Some [(0, 0); (3, 3)]) Osrm.FetchRejected
                no_refs in
      completion run = Normal tt
      /\ ~ In UnhandledRejection (trace run)
      /\ requests (trace run) = [[(0, 0); (3, 3)]]
      /\ exists info,
          callbacks (trace run) = [info]
          /\ info = @fallback_route grid_map (0, 0) (3, 3)).
Proof.
  split; [reflexivity |].
  destruct (@resolution_calls_back_once grid_map (0, 0) (3, 3) []
              Osrm.FetchRejected no_refs eq_refl)
    as (H1 & H2 & H3 & (info & H4 & _ & H5) & _).
  split; [exact H1 |]. split; [exact H2 |]. split; [exact H3 |].
  exists info. split; [exact H4 |]. apply H5. reflexivity.
Defined.

(** C2 as stated fails: a reply that is not ok (a 500, say) but whose body
    carries a route is not absorbed by the fallback chain; the component
    never looks at the status, reports the route of the provider and shows
    it as such. *)
Lemma non_2xx_reply_not_absorbed :
  let reply :=
    Osrm.Json false
      (Some [Osrm.mkRoute 4200 600 (Some [(0, 0); (3, 0); (3, 3)])]) in
  let run := @effect grid_map true (Some [(0, 0); (3, 3)]) reply no_refs in
  callbacks (trace run) = [mkRouteInfo 4200 600 [(0, 0); (0, 3); (3, 3)]]
  /\ callbacks (trace run) <> [@fallback_route grid_map (0, 0) (3, 3)]
  /\ drawn (trace run) = [[latLng (0, 0); latLng (0, 3); latLng (3, 3)]]
  /\ hints (trace run) = [((50, 50), 15)%Z].
Proof.
  cbn zeta. split; [reflexivity |]. split; [| split; reflexivity].
  intros H. vm_compute in H. discriminate H.
Qed.

(** C3 as stated fails: between (0, 0) and (3, 3) the reported midpoints are
    (0.99, 0.99) and (1.98, 1.98), not the thirds (1, 1) and (2, 2). *)
Lemma tier1_midpoints_not_thirds :
  exists info,
    callbacks (trace (@createFallbackRoute grid_map [(0, 0); (3, 3)] true
                        no_refs)) = [info]
    /\ (exists p1 p2,
           nth_error (coordinates info) 1 = Some p1
           /\ nth_error (coordinates info) 2 = Some p2
           /\ same_point p1 (0.99, 0.99)
           /\ same_point p2 (1.98, 1.98)
           /\ ~ same_point p1 (lerp (1 / 3) (0, 0) (3, 3))
           /\ ~ same_point p2 (lerp (2 / 3) (0, 0) (3, 3))).
Proof.
  eexists. split; [reflexivity |].
  do 2 eexists. split; [reflexivity |]. split; [reflexivity |].
  split; [split; reflexivity |]. split; [split; reflexivity |].
  split; intros [H _]; vm_compute in H; discriminate H.
Qed.

Lemma tier1_path_shape_witness :
  @renders grid_map (map latLng (wayPoints (0, 0) (3, 3))) = true
  /\ exists info,
      callbacks (trace (@createFallbackRoute grid_map [(0, 0); (3, 3)] true
                          no_refs)) = [info]
      /\ drawn (trace (@createFallbackRoute grid_map [(0, 0); (3, 3)] true
                         no_refs))
         = [map latLng (coordinates info)]
      /\ List.length (coordinates info) = 4%nat
      /\ coordinates info
         = [(0, 0); lerp 0.33 (0, 0) (3, 3); lerp 0.66 (0, 0) (3, 3);
            (3, 3)].
Proof.
  split; [reflexivity |].
  apply (@tier1_path_shape grid_map (0, 0) (3, 3) [] no_refs).
  reflexivity.
Defined.

Lemma tier1_distance_piecewise_witness :
  @renders grid_map (map latLng (wayPoints (0, 0) (3, 3))) = true
  /\ exists info p0 p1 p2 p3,
      callbacks (trace (@createFallbackRoute grid_map [(0, 0); (3, 3)] true
                          no_refs)) = [info]
      /\ map latLng (coordinates info) = [p0; p1; p2; p3]
      /\ distance info
         == @path_length grid_map (map latLng (coordinates info))
      /\ distance info
         == grid_distance p0 p1 + grid_distance p1 p2 + grid_distance p2 p3.
Proof.
  split; [reflexivity |].
  apply (@tier1_distance_piecewise grid_map (0, 0) (3, 3) [] no_refs).
  reflexivity.
Defined.

(** With a distance that is not additive along a line, the distance the
    interpolating fallback reports is not the direct one. *)
Example tier1_distance_not_direct :
  distance (@curved_route square_map (0, 0) (3, 3)) == 6.0012
  /\ distance (@direct_route square_map (0, 0) (3, 3)) == 18.
Proof. split; reflexivity. Qed.

Lemma fallback_duration_witness :
  In (@direct_route segment_map times_square central_park)
     (callbacks (trace (@createFallbackRoute segment_map
                          [times_square; central_park] true no_refs)))
  /\ duration (@direct_route segment_map times_square central_park)
     == distance (@direct_route segment_map times_square central_park)
        / (40 * 1000 / 3600)
  /\ estimatedDrivingTime
       (@direct_route segment_map times_square central_park) = 7%Z.
Proof.
  assert (Hin : In (@direct_route segment_map times_square central_park)
                   (callbacks
                      (trace (@createFallbackRoute segment_map
                                [times_square; central_park] true no_refs)))).
  { left. reflexivity. }
  split; [exact Hin |].
  destruct (@fallback_duration segment_map [times_square; central_park] true
              no_refs _ (or_introl Hin)) as (Hdur & _ & Hmin).
  split; [exact Hdur |]. rewrite Hmin. reflexivity.
Defined.

Lemma tier2_straight_line_witness :
  @renders segment_map [latLng (0, 0); latLng (3, 3)] = true
  /\ exists info,
      callbacks (trace (@createFallbackRoute segment_map [(0, 0); (3, 3)]
                          true no_refs)) = [info]
      /\ coordinates info = [(0, 0); (3, 3)]
      /\ distance info = grid_distance (latLng (0, 0)) (latLng (3, 3)).
Proof.
  split; [reflexivity |].
  destruct (@tier2_straight_line segment_map (0, 0) (3, 3) [] no_refs
              eq_refl) as (_ & _ & info & _ & Hpath & Hdist & Hfall).
  exists info. split; [apply Hfall; reflexivity |].
  split; [exact Hpath | exact Hdist].
Defined.

(** C7 as stated fails: a provider route is fitted with padding 50 and
    maximum zoom 15, but for the interpolating fallback the component asks
    for padding 150 and maximum zoom 13. *)
Lemma tier1_hints_not_tight :
  hints (trace (@fetchRoute grid_map [(0, 0); (3, 3)] true
           (Osrm.Json true
              (Some [Osrm.mkRoute 4200 600 (Some [(0, 0); (3, 0); (3, 3)])]))
           no_refs))
  = [((50, 50), 15)%Z]
  /\ hints (trace (@createFallbackRoute grid_map [(0, 0); (3, 3)] true
                     no_refs)) = [((150, 150), 13)%Z]
  /\ hints (trace (@createFallbackRoute grid_map [(0, 0); (3, 3)] true
                     no_refs)) <> [((50, 50), 15)%Z].
Proof. split; [reflexivity |]. split; [reflexivity | discriminate]. Qed.

Lemma hints_by_tier_witness :
  hints (trace (@fetchRoute grid_map [(0, 0); (3, 3)] true
           (Osrm.Json true
              (Some [Osrm.mkRoute 4200 600 (Some [(0, 0); (3, 0); (3, 3)])]))
           no_refs))
  = [((50, 50), 15)%Z]
  /\ hints (trace (@createFallbackRoute grid_map [(0, 0); (3, 3)] true
                     no_refs)) = [((150, 150), 13)%Z]
  /\ hints (trace (@createSimpleDirectRoute grid_map [(0, 0); (3, 3)] true
                     no_refs)) = [((150, 150), 1)%Z].
Proof.
  destruct (@hints_by_tier grid_map (0, 0) (3, 3) [] true true
              (Osrm.mkRoute 4200 600 (Some [(0, 0); (3, 0); (3, 3)])) []
              [(0, 0); (3, 0); (3, 3)] no_refs) as (H1 & H2 & H3).
  split; [apply H1; [reflexivity | discriminate | reflexivity] |].
  split; [apply H2; reflexivity | apply H3; reflexivity].
Defined.

Lemma no_resolution_without_two_waypoints_witness :
  too_few (Some [times_square])
  /\ @effect grid_map true (Some [times_square]) Osrm.FetchRejected no_refs
     = mkRun (Normal tt) no_refs []
  /\ callbacks (trace (RouteTracker.effect (Some [times_square]) no_refs))
     = [].
Proof.
  assert (Hfew : too_few (Some [times_square])) by (cbn; lia).
  split; [exact Hfew |].
  destruct (@no_resolution_without_two_waypoints grid_map true
              (Some [times_square]) Osrm.FetchRejected no_refs Hfew)
    as (H1 & _ & _ & H4).
  split; [exact H1 | exact H4].
Defined.

Lemma curved_not_shorter_than_direct_witness :
  distance (@direct_route grid_map (0, 0) (3, 3))
  <= distance (@curved_route grid_map (0, 0) (3, 3))
  /\ 0 <= distance (@direct_route grid_map (0, 0) (3, 3)).
Proof.
  destruct (@curved_not_shorter_than_direct grid_map (0, 0) (3, 3) []
              grid_map_metric no_refs no_refs
              (@curved_route grid_map (0, 0) (3, 3))
              (@direct_route grid_map (0, 0) (3, 3))
              eq_refl (or_introl eq_refl) (or_introl eq_refl))
    as (H1 & H2 & _).
  split; [exact H1 | exact H2].
Defined.
End Examples.

(** ** Rounding to a fixed number of decimals *)

Section ToFixed.
Variable fractionDigits : nat.

Let scale : Q := inject_Z (10 ^ Z.of_nat fractionDigits).

Let digits (y : Q) : Q :=
  if Qle_bool (inject_Z (10 ^ 21)) y then y
  else inject_Z (Qfloor (y * scale + 1 / 2)) / scale.

Lemma scale_pos : 0 < scale.
Proof.
  unfold scale. change 0 with (inject_Z 0). rewrite <- Zlt_Qlt.
  apply Z.pow_pos_nonneg; lia.
Qed.

Lemma Qle_bool_false (a b : Q) : Qle_bool a b = false -> b < a.
Proof.
  intros H. apply Qnot_le_lt. intros Hle.
  apply Qle_bool_iff in Hle. congruence.
Qed.

Lemma digits_nonneg (y : Q) : 0 <= y -> 0 <= digits y.
Proof.
  intros Hy. unfold digits.
  destruct (Qle_bool (inject_Z (10 ^ 21)) y); [exact Hy |].
  pose proof scale_pos as Hs.
  apply Qle_shift_div_l; [exact Hs |]. rewrite Qmult_0_l.
  change 0 with (inject_Z 0). rewrite <- Zle_Qle.
  change 0%Z with (Qfloor 0). apply Qfloor_resp_le.
  change (1 / 2) with (1 # 2).
  pose proof (Qmult_le_0_compat y scale Hy (Qlt_le_weak _ _ Hs)). lra.
Qed.

Lemma digits_le (x y : Q) : x <= y -> digits x <= digits y.
Proof.
  intros Hxy. unfold digits.
  pose proof scale_pos as Hs.
  destruct (Qle_bool (inject_Z (10 ^ 21)) x) eqn:Hx;
    destruct (Qle_bool (inject_Z (10 ^ 21)) y) eqn:Hy.
  - exact Hxy.
  - apply Qle_bool_iff in Hx. apply Qle_bool_false in Hy. lra.
  - apply Qle_bool_false in Hx. apply Qle_bool_iff in Hy.
    apply Qle_trans with (inject_Z (10 ^ 21)); [| exact Hy].
    apply Qle_shift_div_r; [exact Hs |].
    unfold scale. rewrite <- inject_Z_mult. rewrite <- Zle_Qle.
    assert (Hlt : inject_Z (Qfloor (x * scale + 1 / 2))
                  < inject_Z (10 ^ 21 * 10 ^ Z.of_nat fractionDigits + 1)).
    { apply Qle_lt_trans with (x * scale + 1 / 2); [apply Qfloor_le |].
      rewrite inject_Z_plus, inject_Z_mult. fold scale.
      change (inject_Z 1) with 1. change (1 / 2) with (1 # 2).
      assert (Hm : x * scale < inject_Z (10 ^ 21) * scale)
        by (apply Qmult_lt_compat_r; assumption).
      revert Hm. generalize (x * scale), (inject_Z (10 ^ 21) * scale).
      intros a b Hm. clear - Hm. lra. }
    rewrite <- Zlt_Qlt in Hlt. unfold scale in Hlt.
    revert Hlt. generalize (10 ^ 21 * 10 ^ Z.of_nat fractionDigits)%Z.
    intros k Hlt. lia.
  - apply Qmult_le_compat_r; [| apply Qlt_le_weak, Qinv_lt_0_compat, Hs].
    rewrite <- Zle_Qle. apply Qfloor_resp_le.
    assert (Hm : x * scale <= y * scale)
      by (apply Qmult_le_compat_r; [assumption | apply Qlt_le_weak, Hs]).
    revert Hm. generalize (x * scale), (y * scale). intros a b Hm. clear - Hm. lra.
Qed.

Lemma toFixed_digits (x : Q) :
  toFixed fractionDigits x
  = if Qle_bool 0 x then digits x else - digits (- x).
Proof. reflexivity. Qed.

(** Rounding keeps the order. *)
Lemma toFixed_le (x y : Q) :
  x <= y -> toFixed fractionDigits x <= toFixed fractionDigits y.
Proof.
  intros Hxy. rewrite !toFixed_digits.
  destruct (Qle_bool 0 x) eqn:Hx; destruct (Qle_bool 0 y) eqn:Hy.
  - apply digits_le. exact Hxy.
  - apply Qle_bool_iff in Hx. apply Qle_bool_false in Hy. lra.
  - apply Qle_bool_false in Hx. apply Qle_bool_iff in Hy.
    pose proof (digits_nonneg (- x)) as H1.
    pose proof (digits_nonneg y Hy) as H2. lra.
  - apply Qle_bool_false in Hx. apply Qle_bool_false in Hy.
    pose proof (digits_le (- y) (- x)) as H. lra.
Qed.

Lemma toFixed_comp (x y : Q) :
  x == y -> toFixed fractionDigits x == toFixed fractionDigits y.
Proof.
  intros Hxy. apply Qle_antisym; apply toFixed_le; lra.
Qed.

Lemma toFixed_nonneg (x : Q) : 0 <= x -> 0 <= toFixed fractionDigits x.
Proof.
  intros Hx. rewrite toFixed_digits.
  apply Qle_bool_iff in Hx as Hb. rewrite Hb. apply digits_nonneg. exact Hx.
Qed.
End ToFixed.

Lemma Math_max_r (a b : Q) : b <= Math_max a b.
Proof.
  unfold Math_max. destruct (Qle_bool a b) eqn:H.
  - apply Qle_refl.
  - apply Qle_bool_false in H. lra.
Qed.

Lemma Math_max_le (a a' b : Q) : a <= a' -> Math_max a b <= Math_max a' b.
Proof.
  intros Ha. unfold Math_max.
  destruct (Qle_bool a b) eqn:H; destruct (Qle_bool a' b) eqn:H'.
  - apply Qle_refl.
  - apply Qle_bool_false in H'. lra.
  - apply Qle_bool_false in H. apply Qle_bool_iff in H'. lra.
  - exact Ha.
Qed.

Lemma Math_min_r (a b : Q) : Math_min a b <= b.
Proof.
  unfold Math_min. destruct (Qle_bool a b) eqn:H.
  - apply Qle_bool_iff in H. exact H.
  - apply Qle_refl.
Qed.

Lemma Math_min_l (a b : Q) : Math_min a b <= a.
Proof.
  unfold Math_min. destruct (Qle_bool a b) eqn:H.
  - apply Qle_refl.
  - apply Qle_bool_false in H. lra.
Qed.

Lemma Math_min_glb (a b c : Q) : c <= a -> c <= b -> c <= Math_min a b.
Proof.
  intros Ha Hb. unfold Math_min. destruct (Qle_bool a b); assumption.
Qed.

Lemma Math_round_le (x y : Q) :
  x <= y -> (RoutingMachine.Math_round x <= RoutingMachine.Math_round y)%Z.
Proof.
  intros Hxy. unfold RoutingMachine.Math_round. apply Qfloor_resp_le. lra.
Qed.

Lemma Math_round_lower (n : Z) (x : Q) :
  inject_Z n - 1 / 2 <= x -> (n <= RoutingMachine.Math_round x)%Z.
Proof.
  intros H. unfold RoutingMachine.Math_round.
  rewrite <- (Qfloor_Z n). apply Qfloor_resp_le.
  change (1 / 2) with (1 # 2) in H. lra.
Qed.

Lemma Math_round_upper (n : Z) (x : Q) :
  x < inject_Z n + 1 / 2 -> (RoutingMachine.Math_round x <= n)%Z.
Proof.
  intros H. unfold RoutingMachine.Math_round.
  assert (Hlt : inject_Z (Qfloor (x + 0.5)) < inject_Z (n + 1)).
  { apply Qle_lt_trans with (x + 0.5); [apply Qfloor_le |].
    rewrite inject_Z_plus. change (inject_Z 1) with 1.
    change (1 / 2) with (1 # 2) in H. lra. }
  rewrite <- Zlt_Qlt in Hlt. lia.
Qed.

(** ** Fares *)

(** Put divisions by a literal in a form linear arithmetic reads. *)
Ltac literal_divisions :=
  unfold Qdiv in *; cbn [Qinv Qnum Qden] in *.

Section FareBounds.
Import Fares.

(** The raw fare grows with the distance and the time when no rate is
    negative. *)
Lemma uberPrice_le (rates : UberRates.t) (m m' t t' : Q) :
  0 <= UberRates.perMile rates -> 0 <= UberRates.perMinute rates ->
  m <= m' -> t <= t' ->
  uberPrice m t rates <= uberPrice m' t' rates.
Proof.
  intros Hmile Hminute Hm Ht. unfold uberPrice.
  apply toFixed_le, Math_max_le.
  assert (H1 : m * UberRates.perMile rates <= m' * UberRates.perMile rates)
    by (apply Qmult_le_compat_r; assumption).
  assert (H2 : t * UberRates.perMinute rates <= t' * UberRates.perMinute rates)
    by (apply Qmult_le_compat_r; assumption).
  lra.
Qed.

Lemma uberPrice_minFare (rates : UberRates.t) (m t : Q) :
  toFixed 2 (UberRates.minFare rates) == UberRates.minFare rates ->
  UberRates.minFare rates <= uberPrice m t rates.
Proof.
  intros Hfix. unfold uberPrice. rewrite <- Hfix at 1.
  apply toFixed_le, Math_max_r.
Qed.

(** X1. Whatever the distance and the duration, [calculateUberPrices] gives
    one fare per Uber type, in the order of the table, and none is below the
    minimum fare of its type. *)
Theorem uber_fares_not_below_minimum (distance duration : Q) :
  Forall2
    (fun entry fare =>
       fst fare = fst entry /\ UberRates.minFare (snd entry) <= snd fare)
    uberPriceData (calculateUberPrices distance duration).
Proof.
  unfold calculateUberPrices, uberPriceData. cbn [map fst snd].
  repeat constructor; cbn [fst snd]; apply uberPrice_minFare; reflexivity.
Qed.

(** X2. A longer or slower trip is never cheaper: when neither the distance
    nor the duration decreases, no Uber fare decreases. *)
Theorem uber_fares_monotone (distance distance' duration duration' : Q) :
  distance <= distance' -> duration <= duration' ->
  Forall2
    (fun fare fare' => fst fare = fst fare' /\ snd fare <= snd fare')
    (calculateUberPrices distance duration)
    (calculateUberPrices distance' duration').
Proof.
  intros Hd Ht. unfold calculateUberPrices, uberPriceData. cbn [map fst snd].
  assert (Hm : distance / 1609.34 <= distance' / 1609.34)
    by (literal_divisions; lra).
  assert (Hn : duration / 60 <= duration' / 60)
    by (literal_divisions; lra).
  repeat constructor; cbn [fst snd];
    apply uberPrice_le; try assumption; cbn; lra.
Qed.

Lemma uber_fares_monotone_witness :
  Forall2
    (fun fare fare' => fst fare = fst fare' /\ snd fare <= snd fare')
    (calculateUberPrices 1000 120) (calculateUberPrices 20000 1800).
Proof.
  apply (uber_fares_monotone 1000 20000 120 1800); lra.
Defined.

(** X3. Bus and subway cost 2.75 whatever the distance; the train never
    costs more than 10.00, not less than 3.00 on a distance that is not
    negative, and exactly 10.00 from 70 miles (112653.8 m) on. *)
Theorem public_fares (distance : Q) :
  exists bus subway train,
    calculatePublicTransportPrices distance
    = [("Bus"%string, bus); ("Subway"%string, subway);
       ("Train"%string, train)]
    /\ bus == 2.75 /\ subway == 2.75
    /\ train <= 10
    /\ (0 <= distance -> 3 <= train)
    /\ (112653.8 <= distance -> train == 10).
Proof.
  unfold calculatePublicTransportPrices, publicTransportData.
  cbn [map fst snd]. do 3 eexists. split; [reflexivity |].
  assert (Hflat : forall m, publicPrice m (PublicRates.mk 2.75 0 2.75) == 2.75).
  { intros m. unfold publicPrice. cbn [PublicRates.basePrice
      PublicRates.perMile PublicRates.maxPrice].
    assert (E : Math_min (2.75 + m * 0) 2.75 == 2.75).
    { unfold Math_min. destruct (Qle_bool (2.75 + m * 0) 2.75); lra. }
    rewrite (toFixed_comp 2 _ _ E). reflexivity. }
  split; [apply Hflat |]. split; [apply Hflat |].
  unfold publicPrice. cbn [PublicRates.basePrice PublicRates.perMile
    PublicRates.maxPrice].
  assert (Hten : toFixed 2 10.00 == 10) by reflexivity.
  assert (Hthree : toFixed 2 3 == 3) by reflexivity.
  split; [| split].
  - rewrite <- Hten. apply toFixed_le, Math_min_r.
  - intros Hd. rewrite <- Hthree. apply toFixed_le, Math_min_glb.
    + literal_divisions. lra.
    + lra.
  - intros Hd. apply Qle_antisym.
    + rewrite <- Hten. apply toFixed_le, Math_min_r.
    + rewrite <- Hten at 1. apply toFixed_le, Math_min_glb.
      * literal_divisions. lra.
      * lra.
Qed.

Lemma public_fares_witness :
  exists train,
    property "Train" (calculatePublicTransportPrices 200000) = Some train
    /\ train == 10.
Proof.
  destruct (public_fares 200000)
    as (bus & subway & train & Heq & _ & _ & _ & _ & Hcap).
  exists train. rewrite Heq. split; [reflexivity |].
  apply Hcap. lra.
Defined.

(** X4. Walking and cycling have an emission rate of 0 in the table, which
    [emissionRates[type] || 170] takes for a missing one: [estimateCO2]
    gives them the emissions of UberX. *)
Theorem estimateCO2_zero_rate_is_default (distance : Q) :
  property "Walking" emissionRates = Some 0
  /\ property "Cycling" emissionRates = Some 0
  /\ estimateCO2 "Walking" distance = estimateCO2 "UberX" distance
  /\ estimateCO2 "Cycling" distance = estimateCO2 "UberX" distance
  /\ (1000 <= distance -> 170 <= estimateCO2 "Walking" distance).
Proof.
  split; [reflexivity |]. split; [reflexivity |].
  split; [reflexivity |]. split; [reflexivity |].
  intros Hd. unfold estimateCO2.
  change (rateOrDefault "Walking") with 170.
  assert (H170 : toFixed 0 170 == 170) by reflexivity.
  rewrite <- H170 at 1. apply toFixed_le. literal_divisions. lra.
Qed.

Lemma estimateCO2_zero_rate_is_default_witness :
  170 <= estimateCO2 "Walking" 1000.
Proof.
  apply (estimateCO2_zero_rate_is_default 1000). lra.
Defined.

Lemma property_In {A} (key : string) (table : list (string * A)) (v : A) :
  property key table = Some v -> In v (map snd table).
Proof.
  induction table as [| [k v'] table IH]; cbn [property map snd].
  - discriminate.
  - destruct (String.eqb key k).
    + intros H. injection H as <-. left. reflexivity.
    + intros H. right. apply IH. exact H.
Qed.

Lemma rateOrDefault_nonneg (type : string) : 0 <= rateOrDefault type.
Proof.
  unfold rateOrDefault.
  destruct (property type emissionRates) as [rate |] eqn:Hrate; [| lra].
  destruct (Qeq_bool rate 0); [lra |].
  apply property_In in Hrate. cbn in Hrate.
  repeat (destruct Hrate as [<- | Hrate]; [lra |]). destruct Hrate.
Qed.

Lemma estimateCO2_nonneg (type : string) (distance : Q) :
  0 <= distance -> 0 <= estimateCO2 type distance.
Proof.
  intros Hd. unfold estimateCO2. apply toFixed_nonneg.
  apply Qmult_le_0_compat; [apply rateOrDefault_nonneg |].
  literal_divisions. lra.
Qed.
End FareBounds.

(** ** What the side panel derives from a route *)

Section Panel.
Import App.

(** X5. As soon as a route is known the budget tip is shown: the saving of
    the bus over UberX is at least 66 and at most 100 percent, whatever the
    distance and the duration. *)
Theorem budget_saving_bounds (info : Info.t) :
  (66 <= budgetSavingPercentage (Some info) <= 100)%Z.
Proof.
  unfold budgetSavingPercentage, Fares.calculateUberPrices,
    Fares.calculatePublicTransportPrices, Fares.uberPriceData,
    Fares.publicTransportData.
  cbn [map fst snd property String.eqb Ascii.eqb Bool.eqb].
  set (uberX := Fares.uberPrice _ _ _). set (bus := Fares.publicPrice _ _).
  assert (Hu : 8 <= uberX).
  { subst uberX.
    match goal with
    | |- _ <= Fares.uberPrice ?m ?t ?rates =>
        pose proof (uberPrice_minFare rates m t (Qeq_refl _)) as Hmin
    end.
    cbn [UberRates.minFare] in Hmin. lra. }
  assert (Hb : bus == 2.75).
  { subst bus. unfold Fares.publicPrice.
    cbn [PublicRates.basePrice PublicRates.perMile PublicRates.maxPrice].
    generalize (Info.distance info / 1609.34). intros m.
    assert (E : Math_min (2.75 + m * 0) 2.75 == 2.75).
    { unfold Math_min. destruct (Qle_bool (2.75 + m * 0) 2.75); lra. }
    rewrite (toFixed_comp 2 _ _ E). reflexivity. }
  clearbody uberX bus.
  assert (Hpos : 0 < uberX) by lra.
  assert (Hq : bus / uberX * uberX == bus)
    by (field; lra).
  assert (Hq0 : 0 < bus / uberX).
  { apply Qlt_shift_div_l; [exact Hpos | lra]. }
  revert Hq Hq0. generalize (bus / uberX). intros q Hq Hq0.
  assert (Hq8 : q * 8 <= q * uberX).
  { rewrite !(Qmult_comm q). apply Qmult_le_compat_r; lra. }
  split.
  - apply Math_round_lower. change (inject_Z 66) with 66.
    change (1 / 2) with (1 # 2). lra.
  - apply Math_round_upper. change (inject_Z 100) with 100.
    change (1 / 2) with (1 # 2). lra.
Qed.

Lemma insert_option_In (o o' : string * Q) (sorted : list (string * Q)) :
  In o' (insert_option o sorted) -> o' = o \/ In o' sorted.
Proof.
  induction sorted as [| x sorted IH]; cbn [insert_option].
  - intros [<- | []]. left. reflexivity.
  - destruct (Qle_bool (snd o) (snd x)).
    + intros [<- | H]; [left; reflexivity | right; exact H].
    + intros [<- | H]; [right; left; reflexivity |].
      destruct (IH H) as [-> | H']; [left; reflexivity | right; right; exact H'].
Qed.

Lemma sort_options_In (o : string * Q) (options : list (string * Q)) :
  In o (sort_options options) -> In o options.
Proof.
  induction options as [| x options IH]; cbn [sort_options fold_right].
  - intros [].
  - intros H. apply insert_option_In in H.
    destruct H as [-> | H]; [left; reflexivity | right; apply IH; exact H].
Qed.

(** An option that is first and second to none stays first. *)
Lemma sort_options_first (o : string * Q) (options : list (string * Q)) :
  (forall o', In o' options -> snd o <= snd o') ->
  sort_options (o :: options) = o :: sort_options options.
Proof.
  intros Hmin. cbn [sort_options fold_right].
  fold (sort_options options).
  destruct (sort_options options) as [| x sorted] eqn:Hs; [reflexivity |].
  cbn [insert_option].
  assert (Hx : snd o <= snd x).
  { apply Hmin, sort_options_In. rewrite Hs. left. reflexivity. }
  apply Qle_bool_iff in Hx. rewrite Hx. reflexivity.
Qed.

(** X6. For every route whose distance is not negative the most eco-friendly
    option is walking: no ride or public transport option is ever the most
    eco-friendly one, and the eco tip never shows a saving of CO2. *)
Theorem most_eco_friendly_is_walking (info : Info.t) :
  0 <= Info.distance info ->
  findMostEcoFriendly (Some info) = Some "Walking"%string
  /\ co2Saving "Walking" info = None
  /\ (forall type rates, In (type, rates) Fares.uberPriceData ->
      findMostEcoFriendly (Some info) <> Some type)
  /\ (forall type rates, In (type, rates) Fares.publicTransportData ->
      findMostEcoFriendly (Some info) <> Some type).
Proof.
  intros Hd.
  assert (Hw : findMostEcoFriendly (Some info) = Some "Walking"%string).
  { unfold findMostEcoFriendly, options.
    rewrite sort_options_first; [reflexivity |].
    intros o' Hin. cbn [snd].
    repeat (destruct Hin as [<- | Hin];
            [cbn [snd]; try apply Qle_refl;
             apply estimateCO2_nonneg; exact Hd |]).
    destruct Hin. }
  split; [exact Hw |]. split; [reflexivity |]. rewrite Hw. split.
  - intros type rates Hin. cbn in Hin.
    repeat (destruct Hin as [Hin | Hin];
            [injection Hin as <- _; discriminate |]).
    destruct Hin.
  - intros type rates Hin. cbn in Hin.
    repeat (destruct Hin as [Hin | Hin];
            [injection Hin as <- _; discriminate |]).
    destruct Hin.
Qed.

Lemma most_eco_friendly_is_walking_witness :
  findMostEcoFriendly (Some (Info.mk 4697.704 422)) = Some "Walking"%string.
Proof.
  apply (most_eco_friendly_is_walking (Info.mk 4697.704 422)).
  cbn. lra.
Defined.

(** X7. On a distance that is not negative cycling never takes longer than
    walking, and neither time is negative. *)
Theorem cycling_not_slower_than_walking (info : Info.t) :
  0 <= Info.distance info ->
  (0 <= cyclingTime (Some info) <= walkingTime (Some info))%Z.
Proof.
  intros Hd. unfold cyclingTime, walkingTime, cyclingSpeed, walkingSpeed.
  split.
  - apply Math_round_lower. change (inject_Z 0) with 0.
    change (1 / 2) with (1 # 2). literal_divisions. lra.
  - apply Math_round_le. literal_divisions. lra.
Qed.

Lemma cycling_not_slower_than_walking_witness :
  (0 <= cyclingTime (Some (Info.mk 4697.704 422))
   <= walkingTime (Some (Info.mk 4697.704 422)))%Z.
Proof.
  apply (cycling_not_slower_than_walking (Info.mk 4697.704 422)).
  cbn. lra.
Defined.

Lemma Math_round_Z (n : Z) : RoutingMachine.Math_round (inject_Z n) = n.
Proof.
  apply Z.le_antisymm.
  - apply Math_round_upper. change (1 / 2) with (1 # 2). lra.
  - apply Math_round_lower. change (1 / 2) with (1 # 2). lra.
Qed.

(** X8. For a duration that is not negative the times shown for public
    transport are ordered: the subway takes no longer than the train, whose
    time is the driving time, and the bus takes no less. *)
Theorem transit_times_ordered (info : Info.t) :
  0 <= Info.duration info ->
  transitTime "Train" info = drivingTime info
  /\ (0 <= transitTime "Subway" info <= transitTime "Train" info)%Z
  /\ (transitTime "Train" info <= transitTime "Bus" info)%Z.
Proof.
  intros Hd. unfold transitTime, drivingTime.
  cbn [String.eqb Ascii.eqb Bool.eqb].
  set (t := RoutingMachine.Math_round (Info.duration info / 60)).
  assert (Ht : (0 <= t)%Z).
  { subst t. apply Math_round_lower. change (inject_Z 0) with 0.
    change (1 / 2) with (1 # 2). literal_divisions. lra. }
  clearbody t. rewrite Zle_Qle in Ht. change (inject_Z 0) with 0 in Ht.
  split; [reflexivity |]. split; [split |].
  - apply Math_round_lower. change (inject_Z 0) with 0.
    change (1 / 2) with (1 # 2). lra.
  - apply Math_round_upper. change (1 / 2) with (1 # 2). lra.
  - apply Math_round_lower. change (1 / 2) with (1 # 2). lra.
Qed.

Lemma transit_times_ordered_witness :
  (transitTime "Subway" (Info.mk 4697.704 422)
   <= transitTime "Train" (Info.mk 4697.704 422)
   <= transitTime "Bus" (Info.mk 4697.704 422))%Z.
Proof.
  destruct (transit_times_ordered (Info.mk 4697.704 422))
    as (_ & (_ & H1) & H2); [cbn; lra |].
  split; assumption.
Defined.
End Panel.

(** ** Fallback routes in the side panel *)

Section FallbackTimes.
Import RoutingMachine.
Context `{L : Leaflet}.
Hypothesis distance_nonneg : forall a b, 0 <= distanceTo a b.

Lemma path_length_nonneg (path : list LatLng) : 0 <= path_length path.
Proof.
  induction path as [| a path IH]; cbn [path_length]; [lra |].
  destruct path as [| b path]; [lra |].
  pose proof (distance_nonneg a b). lra.
Qed.

(** X9. A route made by a fallback tier, whose duration assumes 40 km/h,
    is shown with a driving time that is not negative and not longer than
    the cycling time, when [distanceTo] is never negative. *)
Theorem fallback_driving_not_slower_than_cycling (waypoints : list Point)
    (cb : bool) (r : Refs) (info : RouteInfo) :
  In info (callbacks (trace (createFallbackRoute waypoints cb r))) ->
  (0 <= App.drivingTime (Info.mk (distance info) (duration info))
   <= App.cyclingTime (Some (Info.mk (distance info) (duration info))))%Z.
Proof.
  intros Hin.
  destruct (fallback_callbacks waypoints cb r info (or_introl Hin))
    as (start & end_ & rest & _ & Hinfo).
  assert (Hd : 0 <= distance info).
  { destruct Hinfo as [-> | ->]; cbn [distance curved_route direct_route].
    - rewrite totalDistance_path_length. apply path_length_nonneg.
    - apply distance_nonneg. }
  assert (Hdur : duration info == distance info * (9 # 100)).
  { destruct Hinfo as [-> | ->]; cbn [distance duration curved_route
      direct_route]; field. }
  unfold App.drivingTime, App.cyclingTime, App.cyclingSpeed.
  cbn [Info.distance Info.duration].
  revert Hd Hdur. generalize (distance info), (duration info).
  intros d t Hd Hdur. split.
  - apply Math_round_lower. change (inject_Z 0) with 0.
    change (1 / 2) with (1 # 2). literal_divisions. lra.
  - apply Math_round_le. literal_divisions. lra.
Qed.
End FallbackTimes.

Lemma grid_distance_nonneg (a b : LatLng) : 0 <= grid_distance a b.
Proof. apply (distance_nonneg grid_map grid_map_metric). Qed.

Lemma fallback_driving_not_slower_than_cycling_witness :
  let info := @curved_route grid_map (0, 0) (3, 3) in
  In info
     (callbacks (trace (@RoutingMachine.createFallbackRoute grid_map
                          [(0, 0); (3, 3)] true no_refs)))
  /\ (0 <= App.drivingTime (Info.mk (distance info) (duration info))
      <= App.cyclingTime (Some (Info.mk (distance info) (duration info))))%Z.
Proof.
  intros info.
  assert (Hin : In info
                   (callbacks
                      (trace (@RoutingMachine.createFallbackRoute grid_map
                                [(0, 0); (3, 3)] true no_refs))))
    by (left; reflexivity).
  split; [exact Hin |].
  exact (@fallback_driving_not_slower_than_cycling grid_map
           grid_distance_nonneg [(0, 0); (3, 3)] true no_refs info Hin).
Defined.

(** ** Geocoding *)

Section Geocoding.
Import Geocode.
Variable parseFloat : string -> Q.
Variable reply : Service -> Reply.

(** X10. LocationIQ is always asked first, and Nominatim is asked exactly
    when LocationIQ answers with an ok response holding no entry: when
    LocationIQ fails (request rejected, response not ok, body not JSON)
    geocoding fails without asking Nominatim. *)
Theorem nominatim_only_after_empty_answer :
  (exists others, fst (geocodeAddress parseFloat reply) = LocationIQ :: others)
  /\ (In Nominatim (fst (geocodeAddress parseFloat reply))
      <-> reply LocationIQ = Answer true (Some []))
  /\ ((reply LocationIQ = Rejected
       \/ (exists body, reply LocationIQ = Answer false body)
       \/ reply LocationIQ = Answer true None) ->
      geocodeAddress parseFloat reply = ([LocationIQ], None)).
Proof.
  unfold geocodeAddress, ask.
  destruct (reply LocationIQ) as [| [|] [[| hit hits] |]];
    try match goal with
        | |- context [reply Nominatim] =>
            destruct (reply Nominatim) as [| [|] [[| hit' hits'] |]]
        end;
    cbn [fst In];
    (split; [eexists; reflexivity |]);
    (split; [split |]);
    try reflexivity;
    try (intros H; discriminate H);
    try (intros [H | [H | []]]; discriminate H);
    try (intros [H | []]; discriminate H);
    try (intros _; right; left; reflexivity);
    try (intros [H | [[body H] | H]]; discriminate H).
Qed.

(** X11. Geocoding succeeds in two cases only, with the coordinates of the
    first entry: LocationIQ answers ok with entries, or LocationIQ answers ok
    without any and Nominatim answers ok with entries. *)
Theorem geocode_first_entry (p : Point) :
  snd (geocodeAddress parseFloat reply) = Some p
  <-> (exists hit hits,
          reply LocationIQ = Answer true (Some (hit :: hits))
          /\ p = (parseFloat (lat hit), parseFloat (lon hit)))
      \/ (reply LocationIQ = Answer true (Some [])
          /\ exists hit hits,
              reply Nominatim = Answer true (Some (hit :: hits))
              /\ p = (parseFloat (lat hit), parseFloat (lon hit))).
Proof.
  unfold geocodeAddress, ask.
  destruct (reply LocationIQ) as [| [|] [[| hit hits] |]];
    destruct (reply Nominatim) as [| [|] [[| hit' hits'] |]];
    cbn [snd]; split;
    try (intros H; discriminate H);
    try (intros [(h & hs & H & _) | (H & _)]; discriminate H);
    try (intros [(h & hs & H & _) | (_ & h & hs & H & _)]; discriminate H).
  all: try (intros H; injection H as <-; left; do 2 eexists;
            split; reflexivity).
  all: try (intros H; injection H as <-; right; split; [reflexivity |];
            do 2 eexists; split; reflexivity).
  all: try (intros [(h & hs & H & ->) | (H & _)];
            [injection H as <- _; reflexivity | discriminate H]).
  all: try (intros [(h & hs & H & _) | (_ & h & hs & H & ->)];
            [discriminate H | injection H as <- _; reflexivity]).
Qed.
End Geocoding.

(** ** The state of the App *)

Section AppState.
Import App.

Lemma filter_index_past {A} (prev : list A) :
  forall from index, (index < from)%nat -> filter_index from index prev = prev.
Proof.
  induction prev as [| x prev IH]; intros from index Hlt; cbn [filter_index].
  - reflexivity.
  - destruct (Nat.eqb_spec from index) as [-> | _]; [lia |].
    rewrite IH by lia. reflexivity.
Qed.

Lemma filter_index_at {A} (prev : list A) :
  forall from index,
    (from <= index)%nat ->
    filter_index from index prev
    = firstn (index - from) prev ++ skipn (S (index - from)) prev.
Proof.
  induction prev as [| x prev IH]; intros from index Hle; cbn [filter_index].
  - rewrite firstn_nil, skipn_nil. reflexivity.
  - destruct (Nat.eqb_spec from index) as [-> | Hne].
    + rewrite Nat.sub_diag. cbn [firstn skipn app].
      apply filter_index_past. lia.
    + replace (index - from)%nat with (S (index - S from)) by lia.
      cbn [firstn skipn app]. rewrite IH by lia. reflexivity.
Qed.

(** X12. [removeDestination] takes out the destination at the given index
    and keeps the others in their order; an index past the end changes
    nothing; the waypoints and the route shown stay as they are, also when
    the destination removed is the one routed to. *)
Theorem removeDestination_at (index : nat) (s : State) :
  destinations (removeDestination index s)
  = firstn index (destinations s) ++ skipn (S index) (destinations s)
  /\ ((List.length (destinations s) <= index)%nat ->
      destinations (removeDestination index s) = destinations s)
  /\ ((index < List.length (destinations s))%nat ->
      S (List.length (destinations (removeDestination index s)))
      = List.length (destinations s))
  /\ waypoints (removeDestination index s) = waypoints s
  /\ routeInfo (removeDestination index s) = routeInfo s
  /\ routeCoordinates (removeDestination index s) = routeCoordinates s.
Proof.
  assert (Hspec : destinations (removeDestination index s)
                  = firstn index (destinations s)
                    ++ skipn (S index) (destinations s)).
  { unfold removeDestination, setDestinations. cbn [destinations].
    rewrite filter_index_at by lia. rewrite Nat.sub_0_r. reflexivity. }
  split; [exact Hspec |]. rewrite Hspec.
  split; [| split; [| repeat split]].
  - intros Hlen. rewrite firstn_all2 by exact Hlen.
    rewrite skipn_all2 by lia. apply app_nil_r.
  - intros Hlen. rewrite length_app, length_firstn, length_skipn. lia.
Qed.

Lemma removeDestination_at_witness :
  let s := setDestinations
             (fun _ => [mkDestination "a" (0, 0); mkDestination "b" (1, 1);
                        mkDestination "c" (2, 2)]) initial in
  destinations (removeDestination 1 s)
  = [mkDestination "a" (0, 0); mkDestination "c" (2, 2)]
  /\ destinations (removeDestination 3 s) = destinations s.
Proof.
  intros s.
  destruct (removeDestination_at 1 s) as (H1 & _).
  destruct (removeDestination_at 3 s) as (_ & H2 & _).
  split; [exact H1 | apply H2; cbn; lia].
Defined.

(** X13. A geocoded destination is appended at the end of the list, the
    input is cleared and loading ends; removing the entry at the index it
    got gives back the list there was. *)
Theorem add_then_remove (address : string) (found : Point) (s : State) :
  let s' := addDestination_end address (Some found) s in
  destinations s' = destinations s ++ [mkDestination address found]
  /\ nth_error (destinations s') (List.length (destinations s))
     = Some (mkDestination address found)
  /\ toAddress s' = ""%string
  /\ loading s' = false
  /\ destinations (removeDestination (List.length (destinations s)) s')
     = destinations s.
Proof.
  cbn zeta. split; [reflexivity |]. split; [| split; [| split]].
  - cbn [addDestination_end setLoading setToAddress setDestinations
         destinations].
    rewrite nth_error_app2 by lia. rewrite Nat.sub_diag. reflexivity.
  - reflexivity.
  - reflexivity.
  - destruct (removeDestination_at (List.length (destinations s))
                (addDestination_end address (Some found) s)) as (-> & _).
    cbn [addDestination_end setLoading setToAddress setDestinations
         destinations].
    rewrite firstn_app, Nat.sub_diag, firstn_all. cbn [firstn].
    rewrite app_nil_r. rewrite skipn_all2 by (rewrite length_app; cbn; lia).
    apply app_nil_r.
Qed.

(** X14. [addDestination] and the geocoder together: with an empty input
    nothing is fetched and only the error changes; otherwise the list grows
    by the address typed, at the coordinates found, exactly when geocoding
    succeeds, and stays as it was, with the input kept, when it fails;
    loading ends either way. *)
Theorem addDestination_outcomes (parseFloat : string -> Q)
    (reply : Geocode.Service -> Geocode.Reply) (s : State) :
  let found := snd (Geocode.geocodeAddress parseFloat reply) in
  (toAddress s = ""%string ->
   addDestination_begin s = (setError "Please enter a destination" s, None))
  /\ (toAddress s <> ""%string ->
      exists s1,
        addDestination_begin s = (s1, Some (toAddress s))
        /\ loading s1 = true
        /\ destinations s1 = destinations s
        /\ loading (addDestination_end (toAddress s) found s1) = false
        /\ match found with
           | Some p =>
               destinations (addDestination_end (toAddress s) found s1)
               = destinations s ++ [mkDestination (toAddress s) p]
           | None =>
               destinations (addDestination_end (toAddress s) found s1)
               = destinations s
               /\ toAddress (addDestination_end (toAddress s) found s1)
                  = toAddress s
           end).
Proof.
  cbn zeta. unfold addDestination_begin. split.
  - intros ->. reflexivity.
  - intros Hne. destruct (String.eqb_spec (toAddress s) "") as [E | _];
      [contradiction |].
    eexists. split; [reflexivity |].
    split; [reflexivity |]. split; [reflexivity |].
    destruct (snd (Geocode.geocodeAddress parseFloat reply));
      repeat split; reflexivity.
Qed.

Lemma addDestination_outcomes_witness :
  let reply := fun service =>
    match service with
    | Geocode.LocationIQ => Geocode.Answer false None
    | Geocode.Nominatim =>
        Geocode.Answer true (Some [Geocode.mkHit "40.7" "-73.9"])
    end in
  let s := setToAddress "Times Square" initial in
  exists s1,
    addDestination_begin s = (s1, Some "Times Square"%string)
    /\ destinations
         (addDestination_end "Times Square"
            (snd (Geocode.geocodeAddress (fun _ => 0) reply)) s1) = [].
Proof.
  intros reply s.
  destruct (addDestination_outcomes (fun _ => 0) reply s) as (_ & H).
  destruct H as (s1 & H1 & _ & _ & _ & H2); [discriminate |].
  exists s1. split; [exact H1 |]. apply H2.
Defined.

Lemma step_waypoints (s : State) (a : Action) :
  waypoints (step s a) = waypoints s
  \/ exists here there, waypoints (step s a) = [here; there].
Proof.
  destruct a; cbn [step]; try (left; reflexivity).
  - unfold addDestination_begin.
    destruct (String.eqb (toAddress s) ""); left; reflexivity.
  - destruct found; left; reflexivity.
  - unfold calculateRoute. destruct (currentLocation s) as [here |].
    + right. exists here, (coords destination). reflexivity.
    + left. reflexivity.
Qed.

(** X15. Whatever happens to the App from its initial state, its waypoints
    are none or exactly two: [RoutingMachine], mounted for two waypoints
    only, never sees the short list its guard tests for. *)
Theorem waypoints_none_or_two (actions : list Action) :
  waypoints (run actions initial) = []
  \/ exists here there, waypoints (run actions initial) = [here; there].
Proof.
  unfold run.
  assert (H : forall s,
             (waypoints s = [] \/ exists h t, waypoints s = [h; t]) ->
             waypoints (fold_left step actions s) = []
             \/ exists h t, waypoints (fold_left step actions s) = [h; t]).
  { induction actions as [| a actions IH]; intros s Hs; cbn [fold_left].
    - exact Hs.
    - apply IH. destruct (step_waypoints s a) as [-> | H].
      + exact Hs.
      + right. exact H. }
  apply H. left. reflexivity.
Qed.

Lemma step_routeInfo (s : State) (a : Action) :
  (forall info, a <> RoutesFoundBy info) ->
  routeInfo (step s a) = routeInfo s
  /\ routeCoordinates (step s a) = routeCoordinates s.
Proof.
  intros Hne. destruct a; cbn [step]; try (split; reflexivity).
  - unfold addDestination_begin.
    destruct (String.eqb (toAddress s) ""); split; reflexivity.
  - destruct found; split; reflexivity.
  - unfold calculateRoute. destruct (currentLocation s); split; reflexivity.
  - exfalso. apply (Hne info). reflexivity.
Qed.

(** X16. Only a callback of the resolver changes the route shown: navigating
    elsewhere, removing the destination routed to or anything else leaves
    the route info and its coordinates as they are, and no handler ever
    clears a route info once set. *)
Theorem route_shown_until_replaced (actions : list Action) (s : State) :
  ((forall info, ~ In (RoutesFoundBy info) actions) ->
   routeInfo (run actions s) = routeInfo s
   /\ routeCoordinates (run actions s) = routeCoordinates s)
  /\ (routeInfo s <> None -> routeInfo (run actions s) <> None).
Proof.
  unfold run. revert s.
  induction actions as [| a actions IH]; intros s; cbn [fold_left].
  - split; [split; reflexivity | auto].
  - destruct (IH (step s a)) as (IH1 & IH2). split.
    + intros Hno.
      destruct IH1 as (-> & ->).
      * intros info Hin. apply (Hno info). right. exact Hin.
      * apply step_routeInfo. intros info ->. apply (Hno info).
        left. reflexivity.
    + intros Hset. apply IH2.
      destruct a; cbn [step]; try exact Hset.
      * unfold addDestination_begin.
        destruct (String.eqb (toAddress s) ""); exact Hset.
      * destruct found; exact Hset.
      * unfold calculateRoute. destruct (currentLocation s); exact Hset.
      * discriminate.
Qed.

Lemma route_shown_until_replaced_witness :
  let s := handleRoutesFound (mkRouteInfo 4200 600 [(0, 0); (3, 3)])
             (locationGranted (0, 0) initial) in
  let actions := [CalculateRoute (mkDestination "b" (5, 5));
                  RemoveDestination 0] in
  routeInfo (run actions s) = Some (Info.mk 4200 600)
  /\ routeInfo (run actions s) <> None.
Proof.
  intros s actions.
  destruct (route_shown_until_replaced actions s) as (H1 & H2).
  split.
  - destruct H1 as (-> & _); [| reflexivity].
    intros info [H | [H | []]]; discriminate H.
  - apply H2. discriminate.
Defined.
End AppState.

Lemma nominatim_only_after_empty_answer_witness :
  let reply := fun service =>
    match service with
    | Geocode.LocationIQ => Geocode.Answer false None
    | Geocode.Nominatim =>
        Geocode.Answer true (Some [Geocode.mkHit "40.7" "-73.9"])
    end in
  Geocode.geocodeAddress (fun _ => 0) reply = ([Geocode.LocationIQ], None).
Proof.
  intros reply.
  destruct (nominatim_only_after_empty_answer (fun _ => 0) reply)
    as (_ & _ & H).
  apply H. right. left. exists None. reflexivity.
Defined.

(** ** What the resolver draws *)

Section Drawing.
Import RoutingMachine.
Context `{L : Leaflet}.
Variables (start end_ : Point) (rest : list Point).
Hypothesis segment_drawn : renders [latLng start; latLng end_] = true.

(** X17. A run of the effect taken by itself, whatever the provider
    answers: the path reported to the callback is the last one drawn and
    the one left in [routeLineRef].  It is the only one drawn, with one
    exception: when the first candidate has an empty geometry, its empty
    line is drawn before [fitBounds] throws on its bounds, and that line
    is left on the map next to the path of the fallback. *)
Theorem drawn_is_reported (reply : Osrm.Reply) (r : Refs) :
  let run := effect true (Some (start :: end_ :: rest)) reply r in
  exists info,
    callbacks (trace run) = [info]
    /\ routeLineRef (refs run) = Some (map latLng (coordinates info))
    /\ drawn (trace run)
       = (if empty_line_drawn reply then [[]] else [])
         ++ [map latLng (coordinates info)]
    /\ (empty_line_drawn reply = true -> info = fallback_route start end_).
Proof.
  cbn zeta.
  destruct (effect_total start end_ rest segment_drawn reply r)
    as (rf & t & -> & _ & _ & Hcb & Hdr & Href).
  exists (resolved_route start end_ reply). cbn [trace refs].
  split; [exact Hcb |]. split; [exact Href |]. split; [exact Hdr |].
  unfold empty_line_drawn, resolved_route, provider_route.
  destruct (candidates reply) as [| route others]; [discriminate |].
  destruct (Osrm.geometry route) as [[| c g] |];
    (discriminate || reflexivity).
Qed.
End Drawing.



Lemma drawn_is_reported_witness :
  let reply := Osrm.Json true (Some [Osrm.mkRoute 4200 600 (Some [])]) in
  @renders grid_map [latLng (0, 0); latLng (3, 3)] = true
  /\ exists info,
      callbacks (trace (@RoutingMachine.effect grid_map true
                          (Some [(0, 0); (3, 3)]) reply no_refs)) = [info]
      /\ info = @fallback_route grid_map (0, 0) (3, 3)
      /\ drawn (trace (@RoutingMachine.effect grid_map true
                         (Some [(0, 0); (3, 3)]) reply no_refs))
         = [[]; map latLng (coordinates info)].
Proof.
  intros reply. split; [reflexivity |].
  destruct (@drawn_is_reported grid_map (0, 0) (3, 3) [] eq_refl
              reply no_refs) as (info & H1 & _ & H2 & H3).
  exists info. split; [exact H1 |]. split; [apply H3; reflexivity |].
  exact H2.
Defined.

Section Candidates.
Import RoutingMachine.
Context `{L : Leaflet}.
Variables (start end_ : Point) (rest : list Point).

(** X19. RoutingMachine does not compare candidates: when the first of
    [data.routes] has a geometry that is not empty and can be drawn, it is
    the route reported, with its own distance and duration, whatever the
    other candidates are. *)
Theorem provider_takes_first_candidate (ok : bool) (route : Osrm.Route)
    (others : list Osrm.Route) (g : list Point) (r : Refs) :
  Osrm.geometry route = Some g ->
  g <> [] ->
  renders (map latLng (provider_path g)) = true ->
  callbacks (trace (fetchRoute (start :: end_ :: rest) true
                      (Osrm.Json ok (Some (route :: others))) r))
  = [mkRouteInfo (Osrm.distance route) (Osrm.duration route)
                 (provider_path g)].
Proof.
  intros Hg Hpath Hdraw. destruct g as [| c g]; [congruence |].
  unfold fetchRoute. run_eff. rewrite Hg.
  unfold provider_path in *. cbn [map] in *. rewrite Hdraw. reflexivity.
Qed.
End Candidates.

Lemma provider_takes_first_candidate_witness :
  callbacks
    (trace (@RoutingMachine.fetchRoute grid_map [(0, 0); (3, 3)] true
              (Osrm.Json true
                 (Some [Osrm.mkRoute 4200 600 (Some [(0, 0); (3, 0); (3, 3)]);
                        Osrm.mkRoute 3100 700 (Some [(0, 0); (3, 3)])]))
              no_refs))
  = [mkRouteInfo 4200 600 [(0, 0); (0, 3); (3, 3)]].
Proof.
  apply (@provider_takes_first_candidate grid_map (0, 0) (3, 3) [] true
           (Osrm.mkRoute 4200 600 (Some [(0, 0); (3, 0); (3, 3)]))
           [Osrm.mkRoute 3100 700 (Some [(0, 0); (3, 3)])]
           [(0, 0); (3, 0); (3, 3)] no_refs);
    [reflexivity | discriminate | reflexivity].
Defined.

(** ** RouteTracker: the handler and the control *)

Section Tracker.
Import Lrm RouteTracker.
Context `{L : Leaflet}.

(** X21. The [routesfound] handler does nothing for an empty list.
    Otherwise it fits the map to the shortest route with padding 50 and
    maximum zoom 15 and reports that route, once.  Nothing catches what
    throws on the way: when highlighting is on and drawing the highlight
    throws, or when the shortest route has no coordinates, so that
    [fitBounds] throws on its bounds, the handler throws, the map is not
    fitted and the parent is not called. *)
Theorem routesfound_outcome (highlightShortest cb : bool)
    (routes : list IRoute) (r : Refs) :
  (routes = [] ->
   routesfound highlightShortest cb routes r = mkRun (Normal tt) r [])
  /\ (forall shortest,
         shortestRoute routes = Some shortest ->
         let run := routesfound highlightShortest cb routes r in
         if match coordinates shortest with [] => true | _ :: _ => false end
            || (highlightShortest && negb (renders (coordinates shortest)))
         then completion run = Thrown
              /\ callbacks (trace run) = []
              /\ hints (trace run) = []
         else completion run = Normal tt
              /\ callbacks (trace run)
                 = (if cb
                    then [mkRouteInfo (totalDistance (summary shortest))
                            (totalTime (summary shortest))
                            (map (fun coord => (lat coord, lng coord))
                                 (coordinates shortest))]
                    else [])
              /\ hints (trace run) = [((50, 50), 15)%Z]
              /\ drawn (trace run)
                 = (if highlightShortest then [coordinates shortest]
                    else [])).
Proof.
  split.
  - intros ->. reflexivity.
  - intros shortest Hsel. cbn zeta. unfold routesfound. rewrite Hsel.
    destruct (coordinates shortest) as [| c0 path] eqn:Hpath;
      cbn [orb];
      destruct highlightShortest; cbn [andb].
    + run_eff. destruct (renders []);
        destruct r as [c [l |]]; repeat split; reflexivity.
    + run_eff. repeat split; reflexivity.
    + destruct (renders (c0 :: path)) eqn:Hdraw; cbn [negb];
        run_eff; rewrite Hdraw;
        destruct r as [c [l |]]; destruct cb; repeat split; reflexivity.
    + run_eff. destruct cb; repeat split; reflexivity.
Qed.

(** X22. A run of RouteTracker's effect on two waypoints or more creates one
    routing control and keeps it in the ref; the next such run removes that
    control before it creates its own, and the cleanup removes the one that
    is left. *)
Theorem routing_control_replaced (w1 w2 : list Point) (r : Refs) :
  (2 <= List.length w1)%nat -> (2 <= List.length w2)%nat ->
  let r1 := refs (effect (Some w1) r) in
  routingControlRef r1 = Some w1
  /\ requests (trace (effect (Some w1) r)) = [w1]
  /\ hd_error (trace (effect (Some w2) r1)) = Some RemoveControl
  /\ requests (trace (effect (Some w2) r1)) = [w2]
  /\ routingControlRef (refs (effect (Some w2) r1)) = Some w2
  /\ hd_error (trace (cleanup r1)) = Some RemoveControl.
Proof.
  intros H1 H2. cbn zeta. unfold effect, cleanup.
  assert (E1 : (List.length w1 <? 2)%nat = false) by (apply Nat.ltb_ge; lia).
  assert (E2 : (List.length w2 <? 2)%nat = false) by (apply Nat.ltb_ge; lia).
  rewrite E1, E2.
  destruct r as [[c |] [l |]]; repeat split; reflexivity.
Qed.
End Tracker.

Lemma routesfound_outcome_witness :
  completion (@RouteTracker.routesfound grid_map false true [route_a] no_refs)
  = Thrown
  /\ callbacks
       (trace (@RouteTracker.routesfound grid_map false true [route_a]
                 no_refs)) = []
  /\ callbacks
       (trace (@RouteTracker.routesfound grid_map true true
                 [Lrm.mkRoute (Lrm.mkSummary 10 100)
                    [latLng (0, 0); latLng (3, 3)]] no_refs))
     = [mkRouteInfo 10 100 [(0, 0); (3, 3)]].
Proof.
  destruct (@routesfound_outcome grid_map false true [route_a] no_refs)
    as (_ & H).
  destruct (H _ eq_refl) as (H1 & H2 & _).
  destruct (@routesfound_outcome grid_map true true
              [Lrm.mkRoute (Lrm.mkSummary 10 100)
                 [latLng (0, 0); latLng (3, 3)]] no_refs)
    as (_ & H').
  destruct (H' _ eq_refl) as (_ & H3 & _).
  split; [exact H1 |]. split; [exact H2 | exact H3].
Defined.

Lemma routing_control_replaced_witness :
  hd_error
    (trace (RouteTracker.effect (Some [(1, 1); (2, 2)])
              (refs (RouteTracker.effect (Some [(0, 0); (3, 3)]) no_refs))))
  = Some RemoveControl.
Proof.
  destruct (routing_control_replaced [(0, 0); (3, 3)] [(1, 1); (2, 2)]
              no_refs) as (_ & _ & H & _); [cbn; lia | cbn; lia |].
  exact H.
Defined.
